(** * Voorraadbeheer: LIFO inventory depletion and daily costing

    A shallow embedding of [Voorraadbeheer.py]: the classes [Batch],
    [Product] and [InventoryManager], with the LIFO fulfilment loop, the
    holding-cost sum, the daily aggregation and the CSV persistence.

    Python objects that the program mutates in place are modelled by
    explicit state passing: every method returns the new state of its
    receiver next to its result.  The [print] calls are left out: they
    change no state and no result. *)

From Stdlib Require Import ZArith List Bool String Ascii Lia Permutation.
From Stdlib Require Import DecimalString DecimalZ QArith Qcanon Floats.
Import ListNotations.
Open Scope Z_scope.

(** ** Python numbers

    The program never fixes the type of its cost parameters: [main] passes
    floats, but any Python number works.  Quantities and demands are [int]s
    and are mixed with the cost parameters by [int * cost] and [0 + cost].
    Python evaluates such an expression by converting the [int] operand to
    the type of the other one; [of_int] is that conversion. *)

Class PyNum (R : Type) : Type := {
  of_int : Z -> R;
  py_add : R -> R -> R;
  py_mul : R -> R -> R
}.

(** Number types whose arithmetic is exact: [int], [fractions.Fraction]. *)
Class ExactNum (R : Type) {N : PyNum R} : Prop := {
  py_add_comm : forall x y : R, py_add x y = py_add y x;
  py_add_assoc : forall x y z : R, py_add x (py_add y z) = py_add (py_add x y) z;
  py_add_0_l : forall x : R, py_add (of_int 0) x = x;
  of_int_add : forall a b : Z, of_int (a + b) = py_add (of_int a) (of_int b);
  py_mul_add_distr_r :
    forall x y z : R, py_mul (py_add x y) z = py_add (py_mul x z) (py_mul y z);
  py_mul_0_l : forall z : R, py_mul (of_int 0) z = of_int 0
}.

(** Python [int]. *)
#[export] Instance PyNum_int : PyNum Z :=
  {| of_int := fun z => z; py_add := Z.add; py_mul := Z.mul |}.

(** Python [fractions.Fraction]: rationals in lowest terms. *)
#[export] Instance PyNum_Fraction : PyNum Qc :=
  {| of_int := fun z => Q2Qc (inject_Z z); py_add := Qcplus; py_mul := Qcmult |}.

(** Python [float]: IEEE 754 binary64 with round-to-nearest-even.  The
    conversion of an [int] rounds to the nearest float; Python raises
    [OverflowError] for an [int] beyond the range of a float, where
    [float_of_int] gives an infinity, so this instance stands for Python
    only on [int]s below [2^1024] in magnitude. *)
Definition float_of_int (z : Z) : float :=
  SF2Prim (binary_normalize prec emax z 0 false).

#[export] Instance PyNum_float : PyNum float :=
  {| of_int := float_of_int; py_add := PrimFloat.add; py_mul := PrimFloat.mul |}.

(** ** Python list operations used on the batch stack *)

Section PyList.
Context {A : Type}.

(** [l[-1]]: the last element; [None] stands for [IndexError]. *)
Definition py_last (l : list A) : option A :=
  match rev l with
  | [] => None
  | x :: _ => Some x
  end.

(** The list after [l.pop()]. *)
Definition py_pop (l : list A) : list A := removelast l.

(** The list after the object [l[-1]] was mutated into [x]. *)
Definition set_last (l : list A) (x : A) : list A := removelast l ++ [x].
End PyList.

(** ** Batch and Product *)

Section Inventory.
Context {R : Type} {N : PyNum R}.

Record Batch : Type := mkBatch {
  quantity : Z;
  cost_per_unit : R
}.

Record Product : Type := mkProduct {
  product_name : string;
  holding_cost : R;
  stockout_penalty : R;
  batches : list Batch       (* oldest first, newest last *)
}.

Definition set_quantity (b : Batch) (q : Z) : Batch :=
  mkBatch q (cost_per_unit b).

Definition set_batches (p : Product) (bs : list Batch) : Product :=
  mkProduct (product_name p) (holding_cost p) (stockout_penalty p) bs.

(** [Product.__init__] *)
Definition new_product (name : string) (holding penalty : R) : Product :=
  mkProduct name holding penalty [].

(** [Product.add_batch] *)
Definition add_batch (p : Product) (q : Z) (c : R) : Product :=
  set_batches p (batches p ++ [mkBatch q c]).

(** *** [Product.fulfill_demand]

    The state of the [while] loop: the local [fulfilled] and the list
    [self.batches]. *)
Record LoopState : Type := mkLoop {
  fulfilled : Z;
  stock : list Batch
}.

(** One turn of the loop.  [None] means that the loop condition
    [fulfilled < demand and self.batches] is false; a non-empty list is
    what makes [self.batches[-1]] defined. *)
Definition loop_step (demand : Z) (st : LoopState) : option LoopState :=
  if fulfilled st <? demand then
    match py_last (stock st) with
    | None => None
    | Some last_batch =>
        if quantity last_batch >=? demand - fulfilled st then
          let last_batch' :=
            set_quantity last_batch
              (quantity last_batch - (demand - fulfilled st)) in
          let stock' := set_last (stock st) last_batch' in
          Some (mkLoop demand
                  (if quantity last_batch' =? 0 then py_pop stock' else stock'))
        else
          Some (mkLoop (fulfilled st + quantity last_batch)
                  (py_pop (stock st)))
    end
  else None.

(** The loop, with the number of turns it made.  The fuel bounds the
    number of turns; [while_loop_exits] shows that [S (length stock)] is
    enough for the loop to stop by its own condition. *)
Fixpoint while_loop (fuel : nat) (demand : Z) (st : LoopState)
  : LoopState * nat :=
  match fuel with
  | O => (st, O)
  | S fuel' =>
      match loop_step demand st with
      | None => (st, O)
      | Some st' =>
          let (final, turns) := while_loop fuel' demand st' in
          (final, S turns)
      end
  end.

Definition fulfill_loop (p : Product) (demand : Z) : LoopState * nat :=
  while_loop (S (List.length (batches p))) demand (mkLoop 0 (batches p)).

(** The product after the call and the returned stock-out cost. *)
Definition fulfill_demand (p : Product) (demand : Z) : Product * R :=
  let st := fst (fulfill_loop p demand) in
  let p' := set_batches p (stock st) in
  if fulfilled st <? demand then
    (p', py_mul (of_int (demand - fulfilled st)) (stockout_penalty p))
  else (p', of_int 0).

(** [Product.calculate_holding_cost] *)
Definition calculate_holding_cost (p : Product) : R :=
  fold_left
    (fun total_holding_cost batch =>
       py_add total_holding_cost
         (py_mul (of_int (quantity batch)) (holding_cost p)))
    (batches p) (of_int 0).

(** Total quantity on hand. *)
Fixpoint total_stock (bs : list Batch) : Z :=
  match bs with
  | [] => 0
  | b :: bs' => quantity b + total_stock bs'
  end.

End Inventory.

Arguments Batch R : clear implicits.
Arguments Product R : clear implicits.
Arguments LoopState R : clear implicits.

(** ** Python dict with [str] keys

    A dict keeps its entries in insertion order; the program never deletes
    a key.  [dict_update] stands for a mutation of the object stored under
    a key, which leaves the order of the entries as it is. *)

Section PyDict.
Context {V : Type}.

Definition dict : Type := list (string * V).

(** [d[k]]; [None] stands for [KeyError]. *)
Fixpoint dict_get (d : dict) (k : string) : option V :=
  match d with
  | [] => None
  | (k', v) :: d' => if String.eqb k k' then Some v else dict_get d' k
  end.

(** [k in d] *)
Definition dict_mem (d : dict) (k : string) : bool :=
  match dict_get d k with
  | Some _ => true
  | None => false
  end.

(** The dict after the object [d[k]] was mutated by [f]. *)
Fixpoint dict_update (d : dict) (k : string) (f : V -> V) : dict :=
  match d with
  | [] => []
  | (k', v) :: d' =>
      if String.eqb k k' then (k', f v) :: d'
      else (k', v) :: dict_update d' k f
  end.

(** The dict after [d[k] = v] for a key that is not in [d]. *)
Definition dict_insert (d : dict) (k : string) (v : V) : dict :=
  d ++ [(k, v)].

(** [d.values()] and [d.keys()] *)
Definition dict_values (d : dict) : list V := map snd d.
Definition dict_keys (d : dict) : list string := map fst d.
End PyDict.

Arguments dict V : clear implicits.

(** ** InventoryManager *)

Section Manager.
Context {R : Type} {N : PyNum R}.

(** The attribute [self.products]. *)
Definition InventoryManager : Type := dict (Product R).

(** [InventoryManager.__init__] *)
Definition new_manager : InventoryManager := [].

(** [InventoryManager.add_product] *)
Definition add_product (m : InventoryManager) (name : string)
    (holding penalty : R) : InventoryManager :=
  if dict_mem m name then m
  else dict_insert m name (new_product name holding penalty).

(** [InventoryManager.restock_product] *)
Definition restock_product (m : InventoryManager) (name : string)
    (q : Z) (c : R) : InventoryManager :=
  if negb (dict_mem m name) then m
  else dict_update m name (fun p => add_batch p q c).

(** One turn of the second loop of [simulate_day]: the manager and the
    running [total_stockout_costs]. *)
Definition demand_step (acc : InventoryManager * R) (entry : string * Z)
  : InventoryManager * R :=
  let (m, total_stockout_costs) := acc in
  let (name, demand_amount) := entry in
  match dict_get m name with
  | Some p =>
      let (p', stockout_cost) := fulfill_demand p demand_amount in
      (dict_update m name (fun _ => p'),
       py_add total_stockout_costs stockout_cost)
  | None => (m, total_stockout_costs)
  end.

(** [InventoryManager.simulate_day]: the manager after the day and the
    returned pair.  [demand] is the dict of demands, in its order. *)
Definition simulate_day (m : InventoryManager) (demand : dict Z)
  : InventoryManager * (R * R) :=
  let total_holding_costs :=
    fold_left
      (fun total product => py_add total (calculate_holding_cost product))
      (dict_values m) (of_int 0) in
  let (m', total_stockout_costs) :=
    fold_left demand_step demand (m, of_int 0) in
  (m', (total_holding_costs, total_stockout_costs)).

End Manager.

Arguments InventoryManager R : clear implicits.

(** ** Text of numbers

    [str_of_int] is [str] on an [int].  [int_of_str] is [int] on a [str],
    for an optional minus sign followed by digits; Python also accepts a
    plus sign, surrounding white space and underscores between digits,
    none of which [str] writes.  [None] stands for [ValueError]. *)

Definition str_of_int (z : Z) : string :=
  DecimalString.NilZero.string_of_int (Z.to_int z).

Definition int_of_str (s : string) : option Z :=
  option_map Z.of_int (DecimalString.NilZero.int_of_string s).

(** The text of a cost: [py_str] is [str], which [csv.writer] applies to a
    field that is not a string, and [py_float] is [float] on a [str]
    ([None] stands for [ValueError]), its result taken in [R]. *)
Class PyText (R : Type) : Type := {
  py_str : R -> string;
  py_float : string -> option R
}.

(** An [int] cost [c] is written as its numeral and read back as the float
    of the same value, which Python holds equal to [c]. *)
#[export] Instance PyText_int : PyText Z :=
  {| py_str := str_of_int; py_float := int_of_str |}.

(** ** The [csv] module, [excel] dialect

    Comma as delimiter, the double quote as quote character, doubled
    inside a quoted field, minimal quoting, line terminator CR LF, not
    strict.  The names follow [_csv.c]. *)

Module csv.

Definition CR : ascii := "013"%char.
Definition LF : ascii := "010"%char.
Definition delimiter : ascii := ","%char.
Definition quotechar : ascii := "034"%char.
Definition lineterminator : string := String CR (String LF EmptyString).

Definition str1 (c : ascii) : string := String c EmptyString.

(** *** Writer *)

(** A character that makes the writer quote the field. *)
Definition special (c : ascii) : bool :=
  Ascii.eqb c delimiter || Ascii.eqb c quotechar
  || Ascii.eqb c CR || Ascii.eqb c LF.

Fixpoint needs_quotes (s : string) : bool :=
  match s with
  | EmptyString => false
  | String c s' => special c || needs_quotes s'
  end.

Fixpoint double_quotes (s : string) : string :=
  match s with
  | EmptyString => EmptyString
  | String c s' =>
      if Ascii.eqb c quotechar
      then String quotechar (String quotechar (double_quotes s'))
      else String c (double_quotes s')
  end.

Definition quoted (s : string) : string :=
  String quotechar (double_quotes s ++ str1 quotechar).

Definition join_append (s : string) : string :=
  if needs_quotes s then quoted s else s.

Fixpoint join (fields : list string) : string :=
  match fields with
  | [] => EmptyString
  | [f] => join_append f
  | f :: rest => join_append f ++ String delimiter (join rest)
  end.

(** [writer.writerow]: a row whose only field is empty is quoted. *)
Definition writerow (fields : list string) : string :=
  match fields with
  | [EmptyString] => quoted EmptyString ++ lineterminator
  | _ => join fields ++ lineterminator
  end.

(** *** Reader *)

Inductive ParserState : Type :=
| START_RECORD | START_FIELD | IN_FIELD | IN_QUOTED_FIELD
| QUOTE_IN_QUOTED_FIELD | EAT_CRNL.

Definition ParserState_eqb (a b : ParserState) : bool :=
  match a, b with
  | START_RECORD, START_RECORD | START_FIELD, START_FIELD
  | IN_FIELD, IN_FIELD | IN_QUOTED_FIELD, IN_QUOTED_FIELD
  | QUOTE_IN_QUOTED_FIELD, QUOTE_IN_QUOTED_FIELD | EAT_CRNL, EAT_CRNL => true
  | _, _ => false
  end.

Record Reader : Type := mkReader {
  state : ParserState;
  fields : list string;     (* the fields saved so far *)
  field : string            (* the characters of the current field *)
}.

Definition parse_reset : Reader := mkReader START_RECORD [] EmptyString.

Definition parse_save_field (r : Reader) : Reader :=
  mkReader (state r) (fields r ++ [field r]) EmptyString.

Definition parse_add_char (r : Reader) (c : ascii) : Reader :=
  mkReader (state r) (fields r) (field r ++ str1 c).

Definition set_state (r : Reader) (s : ParserState) : Reader :=
  mkReader s (fields r) (field r).

Definition is_newline (c : ascii) : bool := Ascii.eqb c LF || Ascii.eqb c CR.

(** The state [START_FIELD] of [parse_process_char], which the state
    [START_RECORD] falls through to. *)
Definition start_field (r : Reader) (c : option ascii) : Reader :=
  match c with
  | None => set_state (parse_save_field r) START_RECORD
  | Some c =>
      if is_newline c then set_state (parse_save_field r) EAT_CRNL
      else if Ascii.eqb c quotechar then set_state r IN_QUOTED_FIELD
      else if Ascii.eqb c delimiter then parse_save_field r
      else set_state (parse_add_char r c) IN_FIELD
  end.

(** [parse_process_char]: [c = None] is the end-of-line mark [EOL] that
    the reader feeds after each line; the result [None] is [csv.Error]. *)
Definition parse_process_char (r : Reader) (c : option ascii)
  : option Reader :=
  match state r with
  | START_RECORD =>
      match c with
      | None => Some r
      | Some c' =>
          if is_newline c' then Some (set_state r EAT_CRNL)
          else Some (start_field (set_state r START_FIELD) c)
      end
  | START_FIELD => Some (start_field r c)
  | IN_FIELD =>
      match c with
      | None => Some (set_state (parse_save_field r) START_RECORD)
      | Some c' =>
          if is_newline c' then Some (set_state (parse_save_field r) EAT_CRNL)
          else if Ascii.eqb c' delimiter
          then Some (set_state (parse_save_field r) START_FIELD)
          else Some (parse_add_char r c')
      end
  | IN_QUOTED_FIELD =>
      match c with
      | None => Some r
      | Some c' =>
          if Ascii.eqb c' quotechar
          then Some (set_state r QUOTE_IN_QUOTED_FIELD)
          else Some (parse_add_char r c')
      end
  | QUOTE_IN_QUOTED_FIELD =>
      match c with
      | None => Some (set_state (parse_save_field r) START_RECORD)
      | Some c' =>
          if Ascii.eqb c' quotechar
          then Some (set_state (parse_add_char r c') IN_QUOTED_FIELD)
          else if Ascii.eqb c' delimiter
          then Some (set_state (parse_save_field r) START_FIELD)
          else if is_newline c'
          then Some (set_state (parse_save_field r) EAT_CRNL)
          else Some (set_state (parse_add_char r c') IN_FIELD)
      end
  | EAT_CRNL =>
      match c with
      | None => Some (set_state r START_RECORD)
      | Some c' => if is_newline c' then Some r else None
      end
  end.

(** The characters of one line, then [EOL]. *)
Fixpoint parse_line (r : Reader) (line : string) : option Reader :=
  match line with
  | EmptyString => parse_process_char r None
  | String c line' =>
      match parse_process_char r (Some c) with
      | Some r' => parse_line r' line'
      | None => None
      end
  end.

Inductive ReaderEnd : Type := StopIteration | Error.

(** The rows that iterating the reader over [lines] yields, and how the
    iteration ends.  [Reader_iternext] resets the parser at the start of
    each record and takes lines until the parser is back in
    [START_RECORD]. *)
Fixpoint reader_rows (r : Reader) (lines : list string)
  : list (list string) * ReaderEnd :=
  match lines with
  | [] =>
      if negb (String.eqb (field r) EmptyString)
         || ParserState_eqb (state r) IN_QUOTED_FIELD
      then ([fields (parse_save_field r)], StopIteration)
      else ([], StopIteration)
  | line :: rest =>
      match parse_line r line with
      | None => ([], Error)
      | Some r' =>
          if ParserState_eqb (state r') START_RECORD then
            let (rows, e) := reader_rows parse_reset rest in
            (fields r' :: rows, e)
          else reader_rows r' rest
      end
  end.

Definition reader (lines : list string) : list (list string) * ReaderEnd :=
  reader_rows parse_reset lines.

End csv.

(** ** Text files

    [open(filename, 'w', newline='')] writes the text as it is.
    [open(filename, 'r')] reads with universal newlines: CR LF and a lone
    CR both come back as LF.  Iterating the file yields its lines, each
    with its LF. *)

Fixpoint universal_newlines (s : string) : string :=
  match s with
  | EmptyString => EmptyString
  | String c s' =>
      if Ascii.eqb c csv.CR then
        String csv.LF
          match s' with
          | EmptyString => EmptyString
          | String c' s'' =>
              if Ascii.eqb c' csv.LF then universal_newlines s''
              else universal_newlines s'
          end
      else String c (universal_newlines s')
  end.

Fixpoint lines_from (line : string) (s : string) : list string :=
  match s with
  | EmptyString =>
      match line with
      | EmptyString => []
      | _ => [line]
      end
  | String c s' =>
      if Ascii.eqb c csv.LF then (line ++ csv.str1 c)%string :: lines_from EmptyString s'
      else lines_from (line ++ csv.str1 c)%string s'
  end.

Definition file_lines (text : string) : list string :=
  lines_from EmptyString (universal_newlines text).

(** The files: [None] for a name that has no file. *)
Definition FileSystem : Type := string -> option string.

Definition write_file (fs : FileSystem) (filename text : string) : FileSystem :=
  fun f => if String.eqb f filename then Some text else fs f.

(** ** CSV persistence *)

Section Persistence.
Context {R : Type} {N : PyNum R} {T : PyText R}.

Definition header : list string :=
  ["product_name"; "batch_quantity"; "batch_cost_per_unit"]%string.

Definition batch_row (p : Product R) (b : Batch R) : list string :=
  [product_name p; str_of_int (quantity b); py_str (cost_per_unit b)].

(** The rows after the header: the batches of each product, in order. *)
Definition data_rows (m : InventoryManager R) : list (list string) :=
  flat_map (fun p => map (batch_row p) (batches p)) (dict_values m).

(** The text that a sequence of [writer.writerow] calls leaves. *)
Definition write_rows (rows : list (list string)) : string :=
  fold_right (fun row text => (csv.writerow row ++ text)%string)
    EmptyString rows.

(** The text that [save_to_csv] writes. *)
Definition csv_text (m : InventoryManager R) : string :=
  write_rows (header :: data_rows m).

(** [InventoryManager.save_to_csv], when the file can be written. *)
Definition save_to_csv (m : InventoryManager R) (filename : string)
    (fs : FileSystem) : FileSystem :=
  write_file fs filename (csv_text m).

(** The body of the [for row in reader] loop; [None] is an exception:
    [ValueError] from the unpacking of a row that has not three fields,
    from [int] or from [float]. *)
Definition load_row (m : InventoryManager R) (row : list string)
  : option (InventoryManager R) :=
  match row with
  | [name; q; c] =>
      if dict_mem m name then
        match int_of_str q with
        | None => None
        | Some q' =>
            match py_float c with
            | None => None
            | Some c' => Some (dict_update m name (fun p => add_batch p q' c'))
            end
        end
      else Some m
  | _ => None
  end.

(** The loop; an exception leaves it, and the handler keeps what the
    earlier rows did. *)
Fixpoint load_rows (m : InventoryManager R) (rows : list (list string))
  : InventoryManager R :=
  match rows with
  | [] => m
  | row :: rest =>
      match load_row m row with
      | Some m' => load_rows m' rest
      | None => m
      end
  end.

(** [InventoryManager.load_from_csv].  A missing file and an empty file
    (where [next(reader)] raises) leave the manager as it is. *)
Definition load_from_csv (m : InventoryManager R) (filename : string)
    (fs : FileSystem) : InventoryManager R :=
  match fs filename with
  | None => m
  | Some text =>
      match fst (csv.reader (file_lines text)) with
      | [] => m
      | _ :: rows => load_rows m rows
      end
  end.

(** A manager with the products of [m], each without batches. *)
Definition registered_like (m : InventoryManager R) : InventoryManager R :=
  fold_left
    (fun m2 p => add_product m2 (product_name p) (holding_cost p)
                   (stockout_penalty p))
    (dict_values m) new_manager.

End Persistence.

(** ** Definitions used to state the properties *)

Section Statements.
Context {R : Type} {N : PyNum R}.

(** LIFO depletion by recursion on the stack, newest batch first: the
    stack that is left and the part of [need] that no batch covered. *)
Fixpoint deplete (need : Z) (s : list (Batch R)) : list (Batch R) * Z :=
  match s with
  | [] => ([], need)
  | b :: s' =>
      if quantity b >=? need then
        ((if quantity b - need =? 0 then s'
          else set_quantity b (quantity b - need) :: s'), 0)
      else deplete (need - quantity b) s'
  end.

(** No batch of the sequence is empty. *)
Definition no_empty_batch (bs : list (Batch R)) : Prop :=
  Forall (fun b => quantity b <> 0) bs.

(** Every batch of the sequence holds a non-negative quantity. *)
Definition quantities_nonneg (bs : list (Batch R)) : Prop :=
  Forall (fun b => 0 <= quantity b) bs.

(** The holding cost that one batch adds. *)
Definition batch_holding_cost (p : Product R) (b : Batch R) : R :=
  py_mul (of_int (quantity b)) (holding_cost p).

(** Python's [sum]: left to right, from [0]. *)
Definition py_sum (l : list R) : R := fold_left py_add l (of_int 0).

(** The entries of a demand dict whose name is a registered product. *)
Definition known_demand (m : InventoryManager R) (demand : dict Z) : dict Z :=
  filter (fun entry => dict_mem m (fst entry)) demand.

(** The stock-out cost of one entry against the stock of [m]. *)
Definition stockout_of (m : InventoryManager R) (entry : string * Z) : R :=
  match dict_get m (fst entry) with
  | Some p => snd (fulfill_demand p (snd entry))
  | None => of_int 0
  end.

(** The product registered as [name] after a day of [demand] on [m]:
    depleted when [demand] holds the name, untouched otherwise. *)
Definition product_after_day (m : InventoryManager R) (demand : dict Z)
    (name : string) : option (Product R) :=
  match dict_get m name, dict_get demand name with
  | Some p, Some d => Some (fst (fulfill_demand p d))
  | found, _ => found
  end.

End Statements.

(** ** Definitions used to state the round trip through a file *)

(** A field that the writer leaves as it is: it holds none of comma,
    double quote, carriage return and line feed. *)
Definition plain (s : string) : Prop := csv.needs_quotes s = false.

Fixpoint has_newline (s : string) : bool :=
  match s with
  | EmptyString => false
  | String c s' => csv.is_newline c || has_newline s'
  end.

(** A row of at least two plain fields, and the line it is read from. *)
Definition plain_row (row : list string) : Prop :=
  Forall plain row /\ (2 <= List.length row)%nat.

Definition row_line (row : list string) : string :=
  (csv.join row ++ csv.str1 csv.LF)%string.

(** Costs whose text is plain and reads back as the cost. *)
Class PyTextLaws (R : Type) {T : PyText R} : Prop := {
  py_str_plain : forall c : R, plain (py_str c);
  py_float_str : forall c : R, py_float (py_str c) = Some c
}.

(** The entry of a product before any batch is loaded. *)
Definition strip_batches {R : Type} (entry : string * Product R)
  : string * Product R :=
  (fst entry, set_batches (snd entry) []).

(** Every product is registered under its own name, once. *)
Definition well_formed {R : Type} (m : InventoryManager R) : Prop :=
  NoDup (dict_keys m)
  /\ Forall (fun entry => product_name (snd entry) = fst entry) m.

(** ** Inputs used as examples

    The scenario of the specification: product [Widget] with holding cost
    1 and stock-out penalty 10, restocked with 5 units and then 3 units
    (costs in cents). *)

Definition widget : Product Z :=
  add_batch (add_batch (new_product "Widget" 1 10) 5 200) 3 250.

(** The same scenario with the float parameters of the specification. *)
Definition widget_float : Product float :=
  add_batch
    (add_batch (new_product "Widget" 1%float 10%float) 5 2%float)
    3 2.5%float.

(** A product that was restocked with a negative quantity. *)
Definition returns_first : Product Z :=
  add_batch (add_batch (new_product "Widget" 1 10) (-5) 200) 10 250.

(** A product with the float holding rate that Python writes [0.1], and
    the same product with its batches in the opposite order. *)
Definition tenth_up : Product float :=
  add_batch (add_batch (add_batch
    (new_product "Widget" 0x1.999999999999ap-4%float 10%float) 1 2%float) 2 2%float) 3 2%float.

Definition tenth_down : Product float :=
  set_batches tenth_up (rev (batches tenth_up)).

(** A manager whose only product has a carriage return in its name, and no
    files. *)
Definition cr_name : string := String "a" (String csv.CR (String "b" EmptyString)).
Definition lf_name : string := String "a" (String csv.LF (String "b" EmptyString)).

Definition cr_manager : InventoryManager Z :=
  restock_product (add_product new_manager cr_name 1 10) cr_name 5 200.

Definition no_files : FileSystem := fun _ => None.

(** Two products, and the demand of a day that also names a product that
    is not registered. *)
Definition shop : InventoryManager Z :=
  restock_product
    (restock_product
       (restock_product
          (add_product (add_product new_manager "Widget" 1 10) "Gadget" 2 30)
          "Widget" 5 200)
       "Widget" 3 250)
    "Gadget" 7 900.

Definition shop_demand : dict Z :=
  [("Gadget", 10); ("Gizmo", 4); ("Widget", 4)]%string.

(** ** Demand simulation

    [d[k] = v]: the value under a key that is in [d] is replaced where it
    stands, a new key goes to the end. *)
Definition dict_set {V : Type} (d : dict V) (k : string) (v : V) : dict V :=
  if dict_mem d k then dict_update d k (fun _ => v) else dict_insert d k v.

Section Demand.
Context {R : Type} {G : Type}.

(** [random.randint(a, b)] on the state [g] of the generator: the number
    drawn and the next state; [None] stands for the [ValueError] of an
    empty range. *)
Variable randint : G -> Z -> Z -> option (Z * G).

(** The loop of [simulate_demand] over the names of the products. *)
Fixpoint simulate_demand_loop (names : list string) (min_demand max_demand : Z)
    (g : G) (demand_dict : dict Z) : option (dict Z * G) :=
  match names with
  | [] => Some (demand_dict, g)
  | product_name :: rest =>
      match randint g min_demand max_demand with
      | None => None
      | Some (demand, g') =>
          simulate_demand_loop rest min_demand max_demand g'
            (dict_set demand_dict product_name demand)
      end
  end.

(** [InventoryManager.simulate_demand] *)
Definition simulate_demand (m : InventoryManager R)
    (min_demand max_demand : Z) (g : G) : option (dict Z * G) :=
  simulate_demand_loop (dict_keys m) min_demand max_demand g [].

(** What the library promises of [randint]: a number of the range, and an
    error exactly for an empty range. *)
Definition randint_contract : Prop :=
  forall (g : G) (a b : Z),
    match randint g a b with
    | Some (n, _) => a <= n <= b
    | None => b < a
    end.

End Demand.

(** A generator for examples: it walks through the range. *)
Definition walk_randint (g : nat) (a b : Z) : option (Z * nat) :=
  if a <=? b then Some (a + Z.of_nat g mod (b - a + 1), S g) else None.

(** ** Definitions used to state what loading does *)

Section LoadStatements.
Context {R : Type} {T : PyText R}.

(** [m'] has the products of [m], in order and under the same names, each
    with its parameters and its batches followed by further batches. *)
Definition grown_from (m m' : InventoryManager R) : Prop :=
  Forall2
    (fun entry entry' =>
       fst entry' = fst entry
       /\ exists added,
            snd entry' = set_batches (snd entry) (batches (snd entry) ++ added))
    m m'.

(** An entry with the batches that [src] holds under its name put after
    its own. *)
Definition append_saved (src : InventoryManager R)
    (entry : string * Product R) : string * Product R :=
  (fst entry,
   set_batches (snd entry)
     (batches (snd entry)
      ++ match dict_get src (fst entry) with
         | Some p => batches p
         | None => []
         end)).

(** A row that makes the loop of [load_from_csv] raise: it has not three
    fields, or it names a registered product and its quantity is no
    integer or its cost no float. *)
Definition bad_row (m : InventoryManager R) (row : list string) : Prop :=
  List.length row <> 3%nat
  \/ exists name q c,
       row = [name; q; c]
       /\ dict_mem m name = true
       /\ (int_of_str q = None \/ py_float c = None).

End LoadStatements.

(** ** Definitions used to state the round trip for quoted names *)

Fixpoint has_cr (s : string) : bool :=
  match s with
  | EmptyString => false
  | String c s' => Ascii.eqb c csv.CR || has_cr s'
  end.

(** A text without carriage return. *)
Definition no_cr (s : string) : Prop := has_cr s = false.

(** A row as [save_to_csv] writes it: a first field without carriage
    return, then at least one plain field. *)
Definition savable_row (row : list string) : Prop :=
  match row with
  | name :: g :: rest => no_cr name /\ Forall plain (g :: rest)
  | _ => False
  end.

(** The characters of a piece of a line, without the end-of-line mark. *)
Fixpoint parse_chars (r : csv.Reader) (s : string) : option csv.Reader :=
  match s with
  | EmptyString => Some r
  | String c s' =>
      match csv.parse_process_char r (Some c) with
      | Some r' => parse_chars r' s'
      | None => None
      end
  end.

(** A manager whose product names need quoting: one holds a comma and a
    double quote, the other a line feed. *)
Definition quoted_name : string :=
  String "a" (String "," (String csv.quotechar (String "b" EmptyString))).

Definition quoted_shop : InventoryManager Z :=
  restock_product
    (restock_product
       (restock_product
          (add_product (add_product new_manager quoted_name 1 10) lf_name 2 30)
          quoted_name 5 200)
       lf_name 7 900)
    quoted_name 3 250.

(** Every product name of the manager is one that the writer quotes. *)
Definition needs_quotes_all {R : Type} (m : InventoryManager R) : bool :=
  forallb csv.needs_quotes (dict_keys m).

(** ** Rendering *)

Section Rendering.
Context {R : Type} {T : PyText R}.

(** [Batch.__str__] *)
Definition Batch_str (b : Batch R) : string :=
  ("Batch(quantity=" ++ str_of_int (quantity b)
   ++ ", cost_per_unit=" ++ py_str (cost_per_unit b) ++ ")")%string.

(** The line that [Product.__str__] adds for a batch. *)
Definition batch_line (b : Batch R) : string :=
  ("  " ++ Batch_str b ++ csv.str1 csv.LF)%string.

(** The first line of [Product.__str__]. *)
Definition name_line (p : Product R) : string :=
  ("Product " ++ product_name p ++ ":" ++ csv.str1 csv.LF)%string.

(** [Product.__str__] *)
Definition Product_str (p : Product R) : string :=
  let product_info := name_line p in
  match batches p with
  | [] => (product_info ++ "  No batches in stock." ++ csv.str1 csv.LF)%string
  | _ :: _ =>
      fold_left (fun info batch => (info ++ batch_line batch)%string)
        (rev (batches p)) product_info
  end.

(** The lines of the batches, the newest batch first. *)
Definition stock_listing (bs : list (Batch R)) : string :=
  fold_right (fun batch text => (batch_line batch ++ text)%string)
    EmptyString (rev bs).

End Rendering.

(** * Properties *)

(** ** The batch stack as a list *)

Section PyListFacts.
Context {A : Type}.

Lemma py_last_snoc (l : list A) (x : A) : py_last (l ++ [x]) = Some x.
Proof. unfold py_last. now rewrite rev_unit. Qed.

Lemma py_last_nil : py_last (@nil A) = None.
Proof. reflexivity. Qed.

Lemma py_pop_snoc (l : list A) (x : A) : py_pop (l ++ [x]) = l.
Proof. apply removelast_last. Qed.

Lemma set_last_snoc (l : list A) (x y : A) : set_last (l ++ [x]) y = l ++ [y].
Proof. unfold set_last. now rewrite removelast_last. Qed.

Lemma py_last_some (l : list A) (x : A) :
  py_last l = Some x -> exists l', l = l' ++ [x].
Proof.
  destruct l as [|y l] using rev_ind; [discriminate|].
  rewrite py_last_snoc. intros [= ->]. now exists l.
Qed.
End PyListFacts.

(** ** One turn of the loop, and the loop *)

Section LoopFacts.
Context {R : Type} {N : PyNum R}.
Implicit Types (b : Batch R) (l : list (Batch R)) (st : LoopState R).

Lemma loop_step_snoc (demand f : Z) l b :
  f < demand ->
  loop_step demand (mkLoop f (l ++ [b])) =
  Some (if quantity b >=? demand - f then
          mkLoop demand
            (if quantity b - (demand - f) =? 0 then l
             else l ++ [set_quantity b (quantity b - (demand - f))])
        else mkLoop (f + quantity b) l).
Proof.
  intros Hlt. unfold loop_step. cbn [fulfilled stock].
  apply Z.ltb_lt in Hlt. rewrite Hlt, py_last_snoc.
  destruct (quantity b >=? demand - f); [|now rewrite py_pop_snoc].
  rewrite set_last_snoc, py_pop_snoc. reflexivity.
Qed.

Lemma loop_step_done (demand : Z) st :
  demand <= fulfilled st -> loop_step demand st = None.
Proof.
  intros H. unfold loop_step. apply Z.ltb_ge in H. now rewrite H.
Qed.

Lemma loop_step_empty (demand f : Z) :
  loop_step demand (@mkLoop R f []) = None.
Proof. unfold loop_step. cbn. now destruct (f <? demand). Qed.

(** A turn is taken only below the demand and on a non-empty stack. *)
Lemma loop_step_some (demand : Z) st st' :
  loop_step demand st = Some st' ->
  fulfilled st < demand /\ exists l b, stock st = l ++ [b].
Proof.
  unfold loop_step. destruct (fulfilled st <? demand) eqn:Hlt; [|discriminate].
  apply Z.ltb_lt in Hlt.
  destruct (py_last (stock st)) as [b|] eqn:Hlast; [|discriminate].
  intros _. split; [assumption|].
  apply py_last_some in Hlast. destruct Hlast as [l Hl]. now exists l, b.
Qed.

Lemma while_loop_done (fuel : nat) (demand : Z) st :
  loop_step demand st = None -> while_loop fuel demand st = (st, O).
Proof. intros H. destruct fuel; cbn; [|rewrite H]; reflexivity. Qed.

(** The loop is the recursion [deplete] on the reversed list. *)
Lemma while_loop_deplete (demand : Z) l :
  forall (fuel : nat) (f : Z),
    f < demand -> (List.length l < fuel)%nat ->
    fst (while_loop fuel demand (mkLoop f l)) =
    mkLoop (demand - snd (deplete (demand - f) (rev l)))
           (rev (fst (deplete (demand - f) (rev l)))).
Proof.
  induction l as [|b l IH] using rev_ind; intros fuel f Hlt Hfuel.
  - rewrite while_loop_done by apply loop_step_empty.
    cbn. f_equal. lia.
  - rewrite length_app in Hfuel. cbn in Hfuel.
    destruct fuel as [|fuel]; [lia|].
    cbn [while_loop]. rewrite loop_step_snoc by assumption.
    rewrite rev_unit. cbn [deplete].
    destruct (quantity b >=? demand - f) eqn:Hq.
    + rewrite while_loop_done by (apply loop_step_done; cbn; lia).
      cbn [fst snd]. f_equal; [lia|].
      destruct (quantity b - (demand - f) =? 0); cbn;
        now rewrite rev_involutive.
    + rewrite Z.geb_leb in Hq. apply Z.leb_gt in Hq.
      destruct (while_loop fuel demand (mkLoop (f + quantity b) l))
        as [st n] eqn:Hw.
      cbn [fst]. change st with (fst (st, n)). rewrite <- Hw.
      rewrite IH by lia.
      now replace (demand - (f + quantity b)) with (demand - f - quantity b)
        by lia.
Qed.

(** The loop stops by its own condition, whatever fuel is left over, and
    takes at most one turn per batch. *)
Lemma while_loop_exits (demand : Z) :
  forall (fuel : nat) st,
    (List.length (stock st) < fuel)%nat ->
    loop_step demand (fst (while_loop fuel demand st)) = None
    /\ (snd (while_loop fuel demand st) <= List.length (stock st))%nat.
Proof.
  induction fuel as [|fuel IH]; intros st Hfuel; [lia|].
  cbn [while_loop].
  destruct (loop_step demand st) as [st'|] eqn:Hstep.
  - destruct (loop_step_some _ _ _ Hstep) as [Hlt [l [b Hl]]].
    destruct st as [f bs]. cbn [fulfilled stock] in *. subst bs.
    rewrite length_app in *. cbn [List.length] in *.
    rewrite loop_step_snoc in Hstep by assumption.
    injection Hstep as <-.
    destruct (quantity b >=? demand - f).
    + rewrite while_loop_done by (apply loop_step_done; cbn; lia).
      cbn [fst snd]. split; [apply loop_step_done; cbn; lia | lia].
    + specialize (IH (mkLoop (f + quantity b) l)).
      cbn [stock] in IH.
      destruct (while_loop fuel demand (mkLoop (f + quantity b) l))
        as [final turns].
      cbn [fst snd] in *. destruct IH as [IH1 IH2]; [lia|].
      split; [assumption | lia].
  - cbn [fst snd]. split; [assumption | lia].
Qed.

(** Fuel beyond the number of batches changes nothing. *)
Lemma while_loop_fuel (demand : Z) :
  forall (fuel extra : nat) st,
    (List.length (stock st) < fuel)%nat ->
    while_loop (fuel + extra) demand st = while_loop fuel demand st.
Proof.
  induction fuel as [|fuel IH]; intros extra st Hfuel; [lia|].
  cbn [while_loop Nat.add].
  destruct (loop_step demand st) as [st'|] eqn:Hstep; [|reflexivity].
  destruct (loop_step_some _ _ _ Hstep) as [Hlt [l [b Hl]]].
  destruct st as [f bs]. cbn [fulfilled stock] in *. subst bs.
  rewrite length_app in *. cbn [List.length] in *.
  rewrite loop_step_snoc in Hstep by assumption.
  injection Hstep as <-.
  destruct (quantity b >=? demand - f).
  - now rewrite !while_loop_done by (apply loop_step_done; cbn; lia).
  - rewrite IH by (cbn; lia). reflexivity.
Qed.

End LoopFacts.

(** ** Depletion as a recursion on the stack *)

Section DepleteFacts.
Context {R : Type} {N : PyNum R}.
Implicit Types (b : Batch R) (s l : list (Batch R)).

Lemma total_stock_app l1 l2 :
  total_stock (l1 ++ l2) = total_stock l1 + total_stock l2.
Proof. induction l1 as [|b l1 IH]; cbn; [reflexivity | rewrite IH; lia]. Qed.

Lemma total_stock_rev l : total_stock (rev l) = total_stock l.
Proof.
  induction l as [|b l IH]; cbn; [reflexivity|].
  rewrite total_stock_app, IH. cbn. lia.
Qed.

(** What leaves the stack is what was fulfilled. *)
Lemma deplete_total s :
  forall need, 0 < need ->
    total_stock s - total_stock (fst (deplete need s)) = need - snd (deplete need s).
Proof.
  induction s as [|b s IH]; intros need Hneed; cbn; [lia|].
  destruct (quantity b >=? need) eqn:Hq.
  - cbn [fst snd]. destruct (quantity b - need =? 0) eqn:Hz; cbn.
    + apply Z.eqb_eq in Hz. lia.
    + lia.
  - rewrite Z.geb_leb in Hq. apply Z.leb_gt in Hq.
    specialize (IH (need - quantity b)). lia.
Qed.

Lemma deplete_covered s :
  forall need, 0 < need -> need <= total_stock s -> snd (deplete need s) = 0.
Proof.
  induction s as [|b s IH]; intros need Hneed Hle; cbn in *; [lia|].
  destruct (quantity b >=? need) eqn:Hq; [reflexivity|].
  rewrite Z.geb_leb in Hq. apply Z.leb_gt in Hq. apply IH; lia.
Qed.

Lemma total_stock_nonneg l : quantities_nonneg l -> 0 <= total_stock l.
Proof. induction 1; cbn; lia. Qed.

Lemma deplete_short s :
  forall need, quantities_nonneg s -> total_stock s < need ->
    deplete need s = ([], need - total_stock s).
Proof.
  induction s as [|b s IH]; intros need Hs Hlt; cbn in *.
  - f_equal. lia.
  - inversion Hs as [|? ? Hb Hs']; subst.
    pose proof (total_stock_nonneg _ Hs').
    destruct (quantity b >=? need) eqn:Hq.
    + rewrite Z.geb_leb in Hq. apply Z.leb_le in Hq. lia.
    + rewrite IH by (assumption || lia). f_equal. lia.
Qed.

(** The shape of the stack that is left: the batches [touched], the
    newest ones, are gone, but for the oldest of them when units are left
    in it; a batch is touched only when the newer ones fall short. *)
Lemma deplete_shape s :
  forall need, 0 < need ->
    exists touched kept,
      s = touched ++ kept
      /\ (forall u1 b u2, touched = u1 ++ b :: u2 -> total_stock u1 < need)
      /\ (fst (deplete need s) = kept
          \/ exists u b q',
               touched = u ++ [b]
               /\ fst (deplete need s) = set_quantity b q' :: kept
               /\ 0 < q' < quantity b).
Proof.
  induction s as [|b s IH]; intros need Hneed.
  - exists [], []. split; [reflexivity|]. split; [|now left].
    intros [|] ? ? [=].
  - cbn [deplete]. destruct (quantity b >=? need) eqn:Hq.
    + rewrite Z.geb_leb in Hq. apply Z.leb_le in Hq.
      exists [b], s. split; [reflexivity|]. split.
      * intros [|? [|]] ? ? [=]. cbn. lia.
      * cbn [fst]. destruct (quantity b - need =? 0) eqn:Hz; [now left|].
        apply Z.eqb_neq in Hz. right. exists [], b, (quantity b - need).
        repeat split; lia || reflexivity.
    + rewrite Z.geb_leb in Hq. apply Z.leb_gt in Hq.
      destruct (IH (need - quantity b)) as (touched & kept & Hs & Hord & Hres); [lia|].
      exists (b :: touched), kept. split; [now rewrite Hs|]. split.
      * intros [|b1 u1] b' u2 Heq; cbn in *; [lia|].
        injection Heq as <- Heq. specialize (Hord _ _ _ Heq). lia.
      * destruct Hres as [Hres | (u & b' & q' & Ht & Hres & Hq')]; [now left|].
        right. exists (b :: u), b', q'. rewrite Ht. repeat split; (assumption || lia).
Qed.
End DepleteFacts.
Section ProductFacts.
Context {R : Type} {N : PyNum R}.
Implicit Types (p : Product R) (b : Batch R) (l : list (Batch R)).

Lemma set_batches_same p : set_batches p (batches p) = p.
Proof. now destruct p. Qed.

Lemma fulfill_demand_nonpos p (d : Z) :
  d <= 0 -> fulfill_demand p d = (p, of_int 0).
Proof.
  intros Hd. unfold fulfill_demand, fulfill_loop.
  rewrite while_loop_done by (apply loop_step_done; cbn; lia).
  cbn [fst fulfilled stock].
  apply Z.ltb_ge in Hd. rewrite Hd. now rewrite set_batches_same.
Qed.

Lemma fulfill_demand_pos p (d : Z) :
  0 < d ->
  fulfill_demand p d =
  (set_batches p (rev (fst (deplete d (rev (batches p))))),
   if 0 <? snd (deplete d (rev (batches p)))
   then py_mul (of_int (snd (deplete d (rev (batches p))))) (stockout_penalty p)
   else of_int 0).
Proof.
  intros Hd. unfold fulfill_demand, fulfill_loop.
  rewrite while_loop_deplete by (cbn; lia).
  cbn [fulfilled stock]. rewrite Z.sub_0_r.
  set (r := deplete d (rev (batches p))).
  destruct (0 <? snd r) eqn:Hr.
  - apply Z.ltb_lt in Hr.
    replace (d - snd r <? d) with true by (symmetry; apply Z.ltb_lt; lia).
    now replace (d - (d - snd r)) with (snd r) by lia.
  - apply Z.ltb_ge in Hr.
    now replace (d - snd r <? d) with false by (symmetry; apply Z.ltb_ge; lia).
Qed.

Lemma quantities_nonneg_rev l : quantities_nonneg l -> quantities_nonneg (rev l).
Proof. apply Forall_rev. Qed.

(** The shape of the batch sequence after a call, oldest batch first. *)
Lemma fulfill_demand_shape p (d : Z) :
  exists kept touched,
    batches p = kept ++ touched
    /\ (forall t1 b t2, touched = t1 ++ b :: t2 -> total_stock t2 < d)
    /\ (batches (fst (fulfill_demand p d)) = kept
        \/ exists b removed q',
             touched = b :: removed
             /\ batches (fst (fulfill_demand p d)) = kept ++ [set_quantity b q']
             /\ 0 < q' < quantity b).
Proof.
  destruct (Z.le_gt_cases d 0) as [Hd|Hd].
  - rewrite fulfill_demand_nonpos by assumption.
    exists (batches p), []. rewrite app_nil_r. split; [reflexivity|].
    split; [|now left]. intros [|] ? ? [=].
  - rewrite fulfill_demand_pos by assumption. cbn [fst batches set_batches].
    destruct (deplete_shape (rev (batches p)) d Hd)
      as (touched & kept & Hs & Hord & Hres).
    exists (rev kept), (rev touched). split.
    + rewrite <- rev_app_distr, <- Hs. now rewrite rev_involutive.
    + split.
      * intros t1 b t2 Heq.
        apply (f_equal (@rev _)) in Heq. rewrite rev_involutive in Heq.
        rewrite rev_app_distr in Heq. cbn in Heq. rewrite <- app_assoc in Heq.
        specialize (Hord _ _ _ Heq). now rewrite total_stock_rev in Hord.
      * destruct Hres as [-> | (u & b & q' & -> & -> & Hq')]; [now left|].
        right. exists b, (rev u), q'. rewrite rev_unit. now cbn.
Qed.
End ProductFacts.

(** ** Fulfilment *)

Section ProductClaims.
Context {R : Type} {N : PyNum R}.
Implicit Types (p : Product R) (b : Batch R) (l : list (Batch R)).

Lemma fulfill_demand_fst p (d : Z) :
  fst (fulfill_demand p d) = set_batches p (stock (fst (fulfill_loop p d))).
Proof.
  unfold fulfill_demand.
  now destruct (fulfilled (fst (fulfill_loop p d)) <? d).
Qed.

(** C1 (amended): after restocks, a single [fulfill_demand(d)] with
    [0 <= d <= total stock] returns 0, takes exactly [d] units out of the
    batches, and works newest-first: the batches [touched] are the newest
    ones, each of them is touched only when the newer ones together fall
    short of [d], all of them are removed but for the oldest, which stays
    with a smaller, positive quantity when units are left in it; the
    batches [kept] are as they were. *)
Theorem fulfill_demand_within_stock p (d : Z) :
  0 <= d <= total_stock (batches p) ->
  snd (fulfill_demand p d) = of_int 0
  /\ total_stock (batches p)
     - total_stock (batches (fst (fulfill_demand p d))) = d
  /\ exists kept touched,
       batches p = kept ++ touched
       /\ (forall t1 b t2, touched = t1 ++ b :: t2 -> total_stock t2 < d)
       /\ (batches (fst (fulfill_demand p d)) = kept
           \/ exists b removed q',
                touched = b :: removed
                /\ batches (fst (fulfill_demand p d))
                   = kept ++ [set_quantity b q']
                /\ 0 < q' < quantity b).
Proof.
  intros [Hd Hle]. split; [|split; [|apply fulfill_demand_shape]].
  - destruct (Z.eq_dec d 0) as [->|Hnz].
    + now rewrite fulfill_demand_nonpos by lia.
    + rewrite fulfill_demand_pos by lia. cbn [snd].
      rewrite deplete_covered by (rewrite ?total_stock_rev; lia).
      reflexivity.
  - destruct (Z.eq_dec d 0) as [->|Hnz].
    + rewrite fulfill_demand_nonpos by lia. cbn [fst]. lia.
    + rewrite fulfill_demand_pos by lia. cbn [fst batches set_batches].
      rewrite total_stock_rev.
      pose proof (deplete_total (rev (batches p)) d ltac:(lia)) as Htot.
      rewrite deplete_covered in Htot by (rewrite ?total_stock_rev; lia).
      rewrite total_stock_rev in Htot. lia.
Qed.

(** C2 (amended): when no batch holds a negative quantity and [d] exceeds
    the total stock, [fulfill_demand(d)] removes every batch and returns
    [(d - total stock) * stockout_penalty]. *)
Theorem fulfill_demand_beyond_stock p (d : Z) :
  quantities_nonneg (batches p) ->
  total_stock (batches p) < d ->
  fulfill_demand p d =
  (set_batches p [],
   py_mul (of_int (d - total_stock (batches p))) (stockout_penalty p)).
Proof.
  intros Hq Hlt. pose proof (total_stock_nonneg _ Hq) as H0.
  rewrite fulfill_demand_pos by lia.
  rewrite deplete_short
    by (rewrite ?total_stock_rev; auto using quantities_nonneg_rev).
  cbn [fst snd rev]. rewrite total_stock_rev.
  now replace (0 <? d - total_stock (batches p)) with true
    by (symmetry; apply Z.ltb_lt; lia).
Qed.

(** C3 (amended): [add_batch] with a quantity other than 0 and
    [fulfill_demand] with any demand keep the batch sequence free of
    empty batches; a turn of the loop leaves the tail batch in place,
    reduced, exactly when units are left in it, and removes it
    otherwise. *)
Theorem no_empty_batch_preserved p (q d : Z) (c : R) :
  q <> 0 ->
  no_empty_batch (batches p) ->
  no_empty_batch (batches (add_batch p q c))
  /\ no_empty_batch (batches (fst (fulfill_demand p d)))
  /\ forall (st st' : LoopState R),
       loop_step d st = Some st' ->
       exists l b,
         stock st = l ++ [b]
         /\ (0 < quantity b - (d - fulfilled st) ->
             stock st' =
             l ++ [set_quantity b (quantity b - (d - fulfilled st))])
         /\ (quantity b - (d - fulfilled st) <= 0 -> stock st' = l).
Proof.
  intros Hq Hp. split; [|split].
  - cbn [add_batch batches set_batches]. apply Forall_app. split; [assumption|].
    now constructor.
  - destruct (fulfill_demand_shape p d) as (kept & touched & Hs & _ & Hres).
    unfold no_empty_batch in *. rewrite Hs in Hp.
    apply Forall_app in Hp. destruct Hp as [Hkept _].
    destruct Hres as [-> | (b & removed & q' & _ & -> & Hq')]; [assumption|].
    apply Forall_app. split; [assumption|]. constructor; [cbn; lia | constructor].
  - intros st st' Hstep.
    destruct (loop_step_some _ _ _ Hstep) as [Hlt [l [b Hl]]].
    exists l, b. split; [assumption|].
    destruct st as [f bs]. cbn [fulfilled stock] in *. subst bs.
    rewrite loop_step_snoc in Hstep by assumption. injection Hstep as <-.
    destruct (quantity b >=? d - f) eqn:Hge; rewrite Z.geb_leb in Hge.
    + apply Z.leb_le in Hge. cbn [stock].
      destruct (quantity b - (d - f) =? 0) eqn:Hz.
      * apply Z.eqb_eq in Hz. split; [lia | reflexivity].
      * apply Z.eqb_neq in Hz. split; [reflexivity | lia].
    + apply Z.leb_gt in Hge. cbn [stock]. split; [lia | reflexivity].
Qed.

(** C6: [fulfill_demand(d)] changes nothing of the product but its batch
    sequence; what is left of the sequence is a prefix [kept] of the
    original one, unchanged, followed at most by one more original batch
    with its cost and a smaller quantity; the costs of the batches left
    are the original costs at the same positions. *)
Theorem fulfill_demand_frame p (d : Z) :
  product_name (fst (fulfill_demand p d)) = product_name p
  /\ holding_cost (fst (fulfill_demand p d)) = holding_cost p
  /\ stockout_penalty (fst (fulfill_demand p d)) = stockout_penalty p
  /\ (exists kept touched,
        batches p = kept ++ touched
        /\ (batches (fst (fulfill_demand p d)) = kept
            \/ exists b removed q',
                 touched = b :: removed
                 /\ batches (fst (fulfill_demand p d))
                    = kept ++ [mkBatch q' (cost_per_unit b)]
                 /\ 0 < q' < quantity b))
  /\ map cost_per_unit (batches (fst (fulfill_demand p d)))
     = firstn (List.length (batches (fst (fulfill_demand p d))))
         (map cost_per_unit (batches p)).
Proof.
  repeat (split; [now rewrite fulfill_demand_fst|]).
  destruct (fulfill_demand_shape p d) as (kept & touched & Hs & _ & Hres).
  split.
  - exists kept, touched. split; [assumption|].
    destruct Hres as [-> | (b & removed & q' & Ht & Hb & Hq')]; [now left|].
    right. now exists b, removed, q'.
  - rewrite Hs, map_app.
    destruct Hres as [-> | (b & removed & q' & -> & -> & Hq')].
    + rewrite <- (length_map cost_per_unit kept).
      now rewrite firstn_app, firstn_all, Nat.sub_diag, firstn_0, app_nil_r.
    + rewrite map_app, length_app. cbn [map List.length cost_per_unit set_quantity].
      rewrite <- (length_map cost_per_unit kept).
      rewrite firstn_app, firstn_all2 by lia.
      replace (List.length (map cost_per_unit kept) + 1
               - List.length (map cost_per_unit kept))%nat with 1%nat by lia.
      reflexivity.
Qed.

(** C8: [fulfill_demand(0)] is a no-op: the loop makes no turn, the
    product is as it was, batches included, and the result is 0. *)
Theorem fulfill_demand_zero p :
  fulfill_demand p 0 = (p, of_int 0)
  /\ fulfill_loop p 0 = (mkLoop 0 (batches p), O).
Proof.
  split; [apply fulfill_demand_nonpos; lia|].
  unfold fulfill_loop. apply while_loop_done, loop_step_done. cbn. lia.
Qed.

(** C10: for every integer demand and every batch sequence the loop of
    [fulfill_demand] stops by its own condition: fuel beyond the number
    of batches plus one changes nothing, the loop makes at most one turn
    per batch (so at most the number of batches plus one), and each turn
    either sets [fulfilled] to the demand or removes one batch. *)
Theorem fulfill_demand_terminates p (demand : Z) (extra : nat) :
  while_loop (S (List.length (batches p)) + extra) demand
    (mkLoop 0 (batches p)) = fulfill_loop p demand
  /\ loop_step demand (fst (fulfill_loop p demand)) = None
  /\ (snd (fulfill_loop p demand) <= List.length (batches p))%nat
  /\ (snd (fulfill_loop p demand) <= List.length (batches p) + 1)%nat
  /\ forall (st st' : LoopState R),
       loop_step demand st = Some st' ->
       (fulfilled st' = demand
        /\ (List.length (stock st') <= List.length (stock st))%nat)
       \/ S (List.length (stock st')) = List.length (stock st).
Proof.
  unfold fulfill_loop.
  pose proof (while_loop_exits demand (S (List.length (batches p)))
                (mkLoop 0 (batches p)) ltac:(cbn; lia)) as [Hexit Hturns].
  cbn [stock] in Hturns.
  split; [apply while_loop_fuel; cbn; lia|].
  split; [assumption|]. split; [assumption|]. split; [lia|].
  intros st st' Hstep.
  destruct (loop_step_some _ _ _ Hstep) as [Hlt [l [b Hl]]].
  destruct st as [f bs]. cbn [fulfilled stock] in *. subst bs.
  rewrite loop_step_snoc in Hstep by assumption. injection Hstep as <-.
  rewrite length_app. cbn [List.length].
  destruct (quantity b >=? demand - f).
  - left. cbn [fulfilled stock]. split; [reflexivity|].
    destruct (quantity b - (demand - f) =? 0);
      rewrite ?length_app; cbn [List.length]; lia.
  - right. cbn [stock]. lia.
Qed.
End ProductClaims.

Open Scope string_scope.

Lemma fulfill_demand_within_stock_witness :
  0 <= 4 <= total_stock (batches widget)
  /\ snd (fulfill_demand widget 4) = 0
  /\ batches (fst (fulfill_demand widget 4)) = [mkBatch 4 200].
Proof.
  assert (H : 0 <= 4 <= total_stock (batches widget)) by (cbn; lia).
  split; [exact H|].
  split; [exact (proj1 (fulfill_demand_within_stock widget 4 H)) | reflexivity].
Defined.

(** C1, as stated, fails for a negative demand: [fulfill_demand(-1)] on a
    product that holds 8 units changes nothing, so the units taken out of
    the batches are 0 and not -1. *)
Lemma fulfill_demand_negative_demand :
  -1 <= total_stock (batches widget)
  /\ fulfill_demand widget (-1) = (widget, 0)
  /\ total_stock (batches widget)
     - total_stock (batches (fst (fulfill_demand widget (-1)))) <> -1.
Proof. cbn. repeat split; (lia || discriminate). Qed.

Lemma fulfill_demand_beyond_stock_witness :
  quantities_nonneg (batches widget)
  /\ total_stock (batches widget) < 10
  /\ fulfill_demand widget 10 = (set_batches widget [], 20).
Proof.
  assert (Hq : quantities_nonneg (batches widget))
    by (repeat constructor; cbn; lia).
  assert (Hlt : total_stock (batches widget) < 10) by (cbn; lia).
  split; [exact Hq|]. split; [exact Hlt|].
  exact (fulfill_demand_beyond_stock widget 10 Hq Hlt).
Defined.

(** C2, as stated, fails when a batch holds a negative quantity: with the
    batches -5 and 10 the total stock is 5, and [fulfill_demand(7)] takes
    the 7 units from the batch of 10, keeps both batches and returns 0,
    where the claim has no batch left and the cost [(7 - 5) * 10]. *)
Lemma fulfill_demand_negative_batch :
  total_stock (batches returns_first) < 7
  /\ fulfill_demand returns_first 7
     = (set_batches returns_first [mkBatch (-5) 200; mkBatch 3 250], 0)
  /\ fulfill_demand returns_first 7
     <> (set_batches returns_first [],
         py_mul (of_int (7 - total_stock (batches returns_first)))
           (stockout_penalty returns_first)).
Proof. cbn. repeat split; (lia || discriminate). Qed.

Lemma no_empty_batch_preserved_witness :
  3 <> 0
  /\ no_empty_batch (batches (add_batch (new_product "Widget" 1 10) 5 200))
  /\ no_empty_batch (batches widget).
Proof.
  assert (Hq : 3 <> 0) by lia.
  assert (Hp : no_empty_batch
                 (batches (add_batch (new_product "Widget" 1 10) 5 200)))
    by (repeat constructor; cbn; lia).
  split; [exact Hq|]. split; [exact Hp|].
  exact (proj1 (no_empty_batch_preserved
                  (add_batch (new_product "Widget" 1 10) 5 200) 3 0 250 Hq Hp)).
Defined.

(** C3, as stated, fails for [add_batch]: it appends whatever quantity it
    is given, so [add_batch(0, c)] on a product without empty batches
    leaves an empty batch in the sequence. *)
Lemma add_batch_zero_quantity :
  no_empty_batch (batches widget)
  /\ ~ no_empty_batch (batches (add_batch widget 0 250)).
Proof.
  split; [repeat constructor; cbn; lia|].
  intros H. unfold no_empty_batch in H. rewrite Forall_forall in H.
  apply (H (mkBatch 0 250)); [cbn; auto | reflexivity].
Qed.

(** ** Holding cost *)

#[export] Instance ExactNum_int : ExactNum Z.
Proof.
  split; cbn; intros; lia.
Qed.

#[export] Instance ExactNum_Fraction : ExactNum Qc.
Proof.
  split; cbn; intros.
  - apply Qcplus_comm.
  - apply Qcplus_assoc.
  - apply Qcplus_0_l.
  - apply Qc_is_canon. unfold Qcplus, Q2Qc. cbn [this].
    rewrite !Qred_correct, inject_Z_plus. reflexivity.
  - apply Qcmult_plus_distr_l.
  - apply Qcmult_0_l.
Qed.

Section HoldingCost.
Context {R : Type} {N : PyNum R}.
Implicit Types (p : Product R) (b : Batch R) (l : list (Batch R)).

Lemma fold_left_map_acc {A B : Type} (f : R -> B -> R) (g : A -> B)
    (xs : list A) (acc : R) :
  fold_left f (map g xs) acc = fold_left (fun a x => f a (g x)) xs acc.
Proof. revert acc. induction xs as [|x xs IH]; intros acc; cbn; auto. Qed.

(** In any arithmetic: the left-to-right sum of the batches' costs. *)
Lemma calculate_holding_cost_sum p :
  calculate_holding_cost p = py_sum (map (batch_holding_cost p) (batches p)).
Proof.
  unfold calculate_holding_cost, py_sum. now rewrite fold_left_map_acc.
Qed.

Lemma total_stock_perm l l' : Permutation l l' -> total_stock l = total_stock l'.
Proof. induction 1; cbn; lia. Qed.

Context {E : ExactNum R}.

Lemma py_add_0_r (x : R) : py_add x (of_int 0) = x.
Proof. rewrite py_add_comm. apply py_add_0_l. Qed.

Lemma holding_fold_acc (h : R) l (acc : R) :
  fold_left (fun t b => py_add t (py_mul (of_int (quantity b)) h)) l acc
  = py_add acc (py_mul (of_int (total_stock l)) h).
Proof.
  revert acc. induction l as [|b l IH]; intros acc; cbn [fold_left total_stock].
  - now rewrite py_mul_0_l, py_add_0_r.
  - now rewrite IH, of_int_add, py_mul_add_distr_r, py_add_assoc.
Qed.

Lemma calculate_holding_cost_total p :
  calculate_holding_cost p
  = py_mul (of_int (total_stock (batches p))) (holding_cost p).
Proof.
  unfold calculate_holding_cost. now rewrite holding_fold_acc, py_add_0_l.
Qed.
End HoldingCost.




(** ** Dicts *)

Section PyDictFacts.
Context {V : Type}.
Implicit Types (d : dict V) (k : string) (f : V -> V).

Lemma dict_get_update_same d k f :
  dict_get (dict_update d k f) k = option_map f (dict_get d k).
Proof.
  induction d as [|[k' v] d IH]; cbn; [reflexivity|].
  destruct (String.eqb k k') eqn:Hk; cbn; rewrite Hk; auto.
Qed.

Lemma dict_get_update_other d k k' f :
  k' <> k -> dict_get (dict_update d k f) k' = dict_get d k'.
Proof.
  intros Hne. induction d as [|[k0 v] d IH]; cbn; [reflexivity|].
  destruct (String.eqb k k0) eqn:Hk; cbn.
  - apply String.eqb_eq in Hk. subst k0.
    now replace (String.eqb k' k) with false
      by (symmetry; now apply String.eqb_neq).
  - now rewrite IH.
Qed.

Lemma dict_mem_update d k k' f :
  dict_mem (dict_update d k f) k' = dict_mem d k'.
Proof.
  unfold dict_mem. destruct (string_dec k' k) as [->|Hne].
  - rewrite dict_get_update_same. now destruct (dict_get d k).
  - now rewrite dict_get_update_other.
Qed.

Lemma dict_keys_update d k f : dict_keys (dict_update d k f) = dict_keys d.
Proof.
  induction d as [|[k' v] d IH]; cbn; [reflexivity|].
  destruct (String.eqb k k'); cbn; [reflexivity|]. f_equal. apply IH.
Qed.

Lemma dict_get_absent d k : ~ In k (dict_keys d) -> dict_get d k = None.
Proof.
  induction d as [|[k' v] d IH]; cbn; [reflexivity|]. intros Hnin.
  destruct (String.eqb k k') eqn:Hk.
  - apply String.eqb_eq in Hk. subst. tauto.
  - apply IH. tauto.
Qed.

Lemma dict_mem_false_absent d k : dict_mem d k = false -> ~ In k (dict_keys d).
Proof.
  unfold dict_mem. induction d as [|[k' v] d IH]; cbn; [tauto|].
  destruct (String.eqb k k') eqn:Hk; [discriminate|].
  apply String.eqb_neq in Hk. intros Hget [Heq|Hin]; [congruence | now apply IH].
Qed.
End PyDictFacts.

(** ** Registration *)

Section ManagerClaims.
Context {R : Type} {N : PyNum R}.
Implicit Types (m : InventoryManager R) (demand : dict Z).

(** C9: [add_product] with a name that is registered leaves the manager
    as it is: the same entries in the same order, so the product under
    the name, its cost parameters and its batches are the original ones;
    there is no failing path, and the keys stay unique. *)
Theorem add_product_registered m (name : string) (holding penalty : R) :
  dict_mem m name = true ->
  add_product m name holding penalty = m
  /\ dict_get (add_product m name holding penalty) name = dict_get m name
  /\ (NoDup (dict_keys m) ->
      NoDup (dict_keys (add_product m name holding penalty))).
Proof.
  intros Hmem. unfold add_product. rewrite Hmem. auto.
Qed.

(** Keys stay unique under every registration. *)
Lemma add_product_keys_unique m (name : string) (holding penalty : R) :
  NoDup (dict_keys m) -> NoDup (dict_keys (add_product m name holding penalty)).
Proof.
  intros Hnd. unfold add_product.
  destruct (dict_mem m name) eqn:Hmem; [assumption|].
  unfold dict_insert, dict_keys. rewrite map_app. cbn.
  apply NoDup_app; [assumption | repeat constructor; intros [] | ].
  intros k Hin [<-|[]]. now apply (dict_mem_false_absent m name).
Qed.

(** *** The day *)

Lemma simulate_day_eq m demand :
  simulate_day m demand =
  (fst (fold_left demand_step demand (m, of_int 0)),
   (py_sum (map calculate_holding_cost (dict_values m)),
    snd (fold_left demand_step demand (m, of_int 0)))).
Proof.
  unfold simulate_day, py_sum.
  rewrite (fold_left_map_acc py_add calculate_holding_cost).
  now destruct (fold_left demand_step demand (m, of_int 0)).
Qed.

Lemma demand_step_mem m (acc : R) (entry : string * Z) (k : string) :
  dict_mem (fst (demand_step (m, acc) entry)) k = dict_mem m k.
Proof.
  destruct entry as [name amount]. cbn.
  destruct (dict_get m name) as [p|]; [|reflexivity].
  destruct (fulfill_demand p amount). cbn. apply dict_mem_update.
Qed.

Lemma demand_step_keys m (acc : R) (entry : string * Z) :
  dict_keys (fst (demand_step (m, acc) entry)) = dict_keys m.
Proof.
  destruct entry as [name amount]. cbn.
  destruct (dict_get m name) as [p|]; [|reflexivity].
  destruct (fulfill_demand p amount). cbn. apply dict_keys_update.
Qed.

Lemma demand_step_unknown m (acc : R) (entry : string * Z) :
  dict_mem m (fst entry) = false -> demand_step (m, acc) entry = (m, acc).
Proof.
  destruct entry as [name amount]. unfold dict_mem. cbn.
  now destruct (dict_get m name).
Qed.

Lemma known_demand_step m (acc : R) (entry : string * Z) demand :
  known_demand (fst (demand_step (m, acc) entry)) demand = known_demand m demand.
Proof.
  unfold known_demand. apply filter_ext. intros e. apply demand_step_mem.
Qed.

(** Entries with an unknown name do nothing. *)
Lemma demand_fold_known demand :
  forall m (acc : R),
    fold_left demand_step demand (m, acc)
    = fold_left demand_step (known_demand m demand) (m, acc).
Proof.
  induction demand as [|entry demand IH]; intros m acc; [reflexivity|].
  cbn [fold_left known_demand filter].
  destruct (dict_mem m (fst entry)) eqn:Hmem.
  - cbn [fold_left].
    destruct (demand_step (m, acc) entry) as [m1 acc1] eqn:Hstep.
    rewrite IH. f_equal.
    change m1 with (fst (m1, acc1)). rewrite <- Hstep.
    apply known_demand_step.
  - rewrite demand_step_unknown by assumption. apply IH.
Qed.

Lemma demand_fold_keys demand :
  forall m (acc : R),
    dict_keys (fst (fold_left demand_step demand (m, acc))) = dict_keys m.
Proof.
  induction demand as [|entry demand IH]; intros m acc; [reflexivity|].
  cbn [fold_left].
  destruct (demand_step (m, acc) entry) as [m1 acc1] eqn:Hstep.
  rewrite IH. change m1 with (fst (m1, acc1)). rewrite <- Hstep.
  apply demand_step_keys.
Qed.

(** With one entry per name, every known entry meets the stock of the
    start of the day. *)
Lemma demand_fold_report demand :
  forall m (acc : R),
    NoDup (dict_keys demand) ->
    (forall name,
        dict_get (fst (fold_left demand_step demand (m, acc))) name
        = product_after_day m demand name)
    /\ snd (fold_left demand_step demand (m, acc))
       = fold_left py_add (map (stockout_of m) (known_demand m demand)) acc.
Proof.
  induction demand as [|[k amount] demand IH]; intros m acc Hnd.
  - cbn. split; [|reflexivity]. intros name. unfold product_after_day. cbn.
    now destruct (dict_get m name).
  - cbn [dict_keys map fst] in Hnd. inversion Hnd as [|? ? Hk Hnd']; subst.
    cbn [fold_left].
    destruct (demand_step (m, acc) (k, amount)) as [m1 acc1] eqn:Hstep.
    destruct (IH m1 acc1 Hnd') as [IHget IHsum].
    assert (Hother : forall name, name <> k -> dict_get m1 name = dict_get m name).
    { intros name Hne. cbn in Hstep.
      destruct (dict_get m k) as [p|]; [|now injection Hstep as <- _].
      destruct (fulfill_demand p amount) as [p' cost].
      injection Hstep as <- _. now apply dict_get_update_other. }
    split.
    + intros name. rewrite IHget. unfold product_after_day. cbn [dict_get].
      destruct (String.eqb name k) eqn:Hname.
      * apply String.eqb_eq in Hname. subst name.
        rewrite (dict_get_absent demand k Hk).
        cbn in Hstep. destruct (dict_get m k) as [p|] eqn:Hget.
        -- destruct (fulfill_demand p amount) as [p' cost] eqn:Hf.
           injection Hstep as <- _. rewrite dict_get_update_same, Hget. reflexivity.
        -- injection Hstep as <- _. now rewrite Hget.
      * apply String.eqb_neq in Hname. now rewrite Hother.
    + rewrite IHsum.
      change m1 with (fst (m1, acc1)) at 2. rewrite <- Hstep, known_demand_step.
      assert (Hmap : map (stockout_of m1) (known_demand m demand)
                     = map (stockout_of m) (known_demand m demand)).
      { apply map_ext_in. intros [k' a'] Hin. unfold stockout_of. cbn [fst snd].
        rewrite Hother; [reflexivity|].
        intros ->. apply Hk. apply filter_In in Hin. destruct Hin as [Hin _].
        now apply (in_map fst) in Hin. }
      rewrite Hmap. unfold known_demand at 2. cbn [filter fst].
      fold (known_demand m demand).
      cbn in Hstep. unfold dict_mem.
      destruct (dict_get m k) as [p|] eqn:Hget.
      * cbn [map fold_left].
        assert (Hs : stockout_of m (k, amount) = snd (fulfill_demand p amount))
          by (unfold stockout_of; cbn [fst snd]; now rewrite Hget).
        rewrite Hs.
        destruct (fulfill_demand p amount) as [p' cost].
        now injection Hstep as _ <-.
      * now injection Hstep as _ <-.
Qed.

(** C4: [simulate_day] returns, first, the sum of
    [calculate_holding_cost()] over all registered products on the stock
    of the start of the day, and second, the sum of the results of
    [fulfill_demand] for the entries of the demand dict whose name is
    registered; the products of these entries are depleted and nothing
    else changes; the entries with unknown names are skipped: the day
    runs as if they were not in the dict.  The demand dict holds each
    name once. *)
Theorem simulate_day_report m demand :
  NoDup (dict_keys demand) ->
  fst (snd (simulate_day m demand))
  = py_sum (map calculate_holding_cost (dict_values m))
  /\ snd (snd (simulate_day m demand))
     = py_sum (map (stockout_of m) (known_demand m demand))
  /\ (forall name,
         dict_get (fst (simulate_day m demand)) name
         = product_after_day m demand name)
  /\ dict_keys (fst (simulate_day m demand)) = dict_keys m
  /\ simulate_day m demand = simulate_day m (known_demand m demand).
Proof.
  intros Hnd. rewrite !simulate_day_eq. cbn [fst snd].
  destruct (demand_fold_report demand m (of_int 0) Hnd) as [Hget Hsum].
  split; [reflexivity|]. split; [exact Hsum|]. split; [exact Hget|].
  split; [apply demand_fold_keys|].
  now rewrite <- demand_fold_known.
Qed.
End ManagerClaims.

Lemma add_product_registered_witness :
  dict_mem shop "Widget" = true
  /\ add_product shop "Widget" 99 99 = shop.
Proof.
  assert (H : dict_mem shop "Widget" = true) by reflexivity.
  split; [exact H|].
  exact (proj1 (add_product_registered shop "Widget" 99 99 H)).
Defined.

Lemma simulate_day_report_witness :
  NoDup (dict_keys shop_demand)
  /\ snd (simulate_day shop shop_demand) = (22, 90)
  /\ fst (snd (simulate_day shop shop_demand))
     = py_sum (map calculate_holding_cost (dict_values shop)).
Proof.
  assert (H : NoDup (dict_keys shop_demand)).
  { repeat constructor; cbn; intuition discriminate. }
  split; [exact H|]. split; [reflexivity|].
  exact (proj1 (simulate_day_report shop shop_demand H)).
Defined.

(** ** Persistence *)

(** C5 fails on the code for a product name that holds a carriage return.
    [save_to_csv] opens the file with [newline=''] and writes the name
    quoted, as it is; [load_from_csv] opens the file without [newline=''],
    so the carriage return comes back as a line feed, the name of the row
    is not a registered product, and the batch is not loaded. *)
Theorem load_after_save_cr_name :
  dict_get cr_manager cr_name
  = Some (mkProduct cr_name 1 10 [mkBatch 5 200])
  /\ fst (csv.reader (file_lines (csv_text cr_manager)))
     = [header; [lf_name; "5"; "200"]]
  /\ dict_get
       (load_from_csv (registered_like cr_manager) "inventory_status.csv"
          (save_to_csv cr_manager "inventory_status.csv" no_files))
       cr_name
     = Some (mkProduct cr_name 1 10 []).
Proof. repeat split; vm_compute; reflexivity. Qed.

(** ** The csv reader on rows of plain fields *)

Section CsvFacts.
Import csv.
Open Scope string_scope.

Lemma append_assoc (a b c : string) : (a ++ b) ++ c = a ++ (b ++ c).
Proof. induction a as [|x a IH]; cbn; [reflexivity | now rewrite IH]. Qed.

Lemma append_nil_r (a : string) : a ++ "" = a.
Proof. induction a as [|x a IH]; cbn; [reflexivity | now rewrite IH]. Qed.

Lemma special_newline (c : ascii) : special c = false -> is_newline c = false.
Proof.
  unfold special, is_newline. intros H.
  apply orb_false_iff in H. destruct H as [H HLF].
  apply orb_false_iff in H. destruct H as [_ HCR].
  now rewrite HLF, HCR.
Qed.

Lemma special_parts (c : ascii) :
  special c = false ->
  Ascii.eqb c delimiter = false /\ Ascii.eqb c quotechar = false
  /\ Ascii.eqb c CR = false /\ Ascii.eqb c LF = false.
Proof.
  unfold special. intros H.
  apply orb_false_iff in H. destruct H as [H HLF].
  apply orb_false_iff in H. destruct H as [H HCR].
  apply orb_false_iff in H. tauto.
Qed.

(** A plain field is read character by character into the current field. *)
Lemma parse_line_in_field (f tail : string) :
  plain f ->
  forall saved cur,
    parse_line (mkReader IN_FIELD saved cur) (f ++ tail)
    = parse_line (mkReader IN_FIELD saved (cur ++ f)) tail.
Proof.
  unfold plain. induction f as [|c f IH]; intros Hf saved cur.
  - now rewrite append_nil_r.
  - cbn in Hf. apply orb_false_iff in Hf. destruct Hf as [Hc Hf].
    destruct (special_parts c Hc) as (Hd & _ & _ & _).
    cbn [append parse_line]. unfold parse_process_char. cbn [state].
    rewrite (special_newline c Hc), Hd.
    unfold parse_add_char. cbn [state fields field].
    rewrite IH by assumption. now rewrite append_assoc.
Qed.

Lemma parse_line_start_field (f tail : string) :
  plain f ->
  forall saved,
    parse_line (mkReader START_FIELD saved "") (f ++ tail)
    = match f with
      | "" => parse_line (mkReader START_FIELD saved "") tail
      | _ => parse_line (mkReader IN_FIELD saved f) tail
      end.
Proof.
  intros Hf saved. destruct f as [|c f]; [reflexivity|].
  unfold plain in Hf. cbn in Hf. apply orb_false_iff in Hf. destruct Hf as [Hc Hf].
  destruct (special_parts c Hc) as (Hd & Hq & _ & _).
  cbn [append parse_line]. unfold parse_process_char, start_field. cbn [state].
  rewrite (special_newline c Hc), Hd, Hq.
  unfold parse_add_char, set_state. cbn [state fields field append].
  now rewrite parse_line_in_field.
Qed.

(** A plain field and the delimiter after it. *)
Lemma parse_line_field_delimiter (f tail : string) :
  plain f ->
  forall saved,
    parse_line (mkReader START_FIELD saved "") (f ++ String delimiter tail)
    = parse_line (mkReader START_FIELD (saved ++ [f]) "") tail.
Proof.
  intros Hf saved. rewrite parse_line_start_field by assumption.
  destruct f; reflexivity.
Qed.

(** The last plain field of a line and the line feed after it. *)
Lemma parse_line_field_end (f : string) :
  plain f ->
  forall saved,
    parse_line (mkReader START_FIELD saved "") (f ++ str1 LF)
    = Some (mkReader START_RECORD (saved ++ [f]) "").
Proof.
  intros Hf saved. rewrite parse_line_start_field by assumption.
  destruct f; reflexivity.
Qed.

Lemma join_cons (f g : string) (rest : list string) :
  join (f :: g :: rest) = join_append f ++ String delimiter (join (g :: rest)).
Proof. reflexivity. Qed.

Lemma join_append_plain (f : string) : plain f -> join_append f = f.
Proof. unfold plain, join_append. now intros ->. Qed.

Lemma parse_line_fields (fs : list string) :
  Forall plain fs -> fs <> [] ->
  forall saved,
    parse_line (mkReader START_FIELD saved "") (join fs ++ str1 LF)
    = Some (mkReader START_RECORD (saved ++ fs) "").
Proof.
  induction fs as [|f fs IH]; intros Hfs Hne saved; [congruence|].
  inversion Hfs as [|? ? Hf Hfs']; subst.
  destruct fs as [|g fs].
  - cbn [join]. rewrite join_append_plain by assumption.
    now apply parse_line_field_end.
  - rewrite join_cons, join_append_plain by assumption.
    rewrite append_assoc. cbn [append].
    rewrite parse_line_field_delimiter by assumption.
    rewrite IH by (assumption || discriminate).
    now rewrite <- app_assoc.
Qed.

(** At the start of a record a character that is no line break is handled
    as at the start of a field. *)
Lemma parse_line_start_record (c : ascii) (line : string) :
  is_newline c = false ->
  parse_line parse_reset (String c line)
  = parse_line (mkReader START_FIELD [] "") (String c line).
Proof.
  intros Hc. cbn [parse_line]. unfold parse_process_char, parse_reset.
  cbn [state]. now rewrite Hc.
Qed.

Lemma parse_line_row (f g : string) (rest : list string) :
  Forall plain (f :: g :: rest) ->
  parse_line parse_reset (join (f :: g :: rest) ++ str1 LF)
  = Some (mkReader START_RECORD (f :: g :: rest) "").
Proof.
  intros Hfs.
  assert (Hstart : parse_line parse_reset (join (f :: g :: rest) ++ str1 LF)
                   = parse_line (mkReader START_FIELD [] "")
                       (join (f :: g :: rest) ++ str1 LF)).
  { inversion Hfs as [|? ? Hf _]; subst.
    rewrite join_cons, join_append_plain by assumption.
    destruct f as [|c f]; cbn [append].
    - now apply parse_line_start_record.
    - apply parse_line_start_record. apply special_newline.
      unfold plain in Hf. cbn in Hf. now apply orb_false_iff in Hf. }
  rewrite Hstart. now rewrite parse_line_fields by (assumption || discriminate).
Qed.
End CsvFacts.

Section CsvFileFacts.
Import csv.
Open Scope string_scope.

Lemma has_newline_app (a b : string) :
  has_newline (a ++ b) = has_newline a || has_newline b.
Proof.
  induction a as [|c a IH]; cbn; [reflexivity|]. now rewrite IH, orb_assoc.
Qed.

Lemma plain_no_newline (f : string) : plain f -> has_newline f = false.
Proof.
  unfold plain. induction f as [|c f IH]; cbn; [reflexivity|]. intros H.
  apply orb_false_iff in H. destruct H as [Hc Hf].
  now rewrite (special_newline c Hc), IH.
Qed.

Lemma join_no_newline (fs : list string) :
  Forall plain fs -> has_newline (join fs) = false.
Proof.
  induction fs as [|f fs IH]; intros Hfs; [reflexivity|].
  inversion Hfs as [|? ? Hf Hfs']; subst.
  destruct fs as [|g fs].
  - cbn [join]. rewrite join_append_plain by assumption.
    now apply plain_no_newline.
  - rewrite join_cons, join_append_plain by assumption.
    rewrite has_newline_app, plain_no_newline by assumption.
    cbn [has_newline orb]. now rewrite IH.
Qed.

Lemma universal_newlines_line (a rest : string) :
  has_newline a = false ->
  universal_newlines (a ++ lineterminator ++ rest)
  = a ++ String LF (universal_newlines rest).
Proof.
  induction a as [|c a IH]; intros Ha.
  - reflexivity.
  - cbn in Ha. apply orb_false_iff in Ha. destruct Ha as [Hc Ha].
    unfold is_newline in Hc. apply orb_false_iff in Hc. destruct Hc as [_ Hc].
    cbn [append universal_newlines]. rewrite Hc. now rewrite <- IH.
Qed.

Lemma lines_from_line (a rest : string) :
  has_newline a = false ->
  forall line,
    lines_from line (a ++ String LF rest)
    = (line ++ a ++ str1 LF) :: lines_from "" rest.
Proof.
  induction a as [|c a IH]; intros Ha line.
  - reflexivity.
  - cbn in Ha. apply orb_false_iff in Ha. destruct Ha as [Hc Ha].
    unfold is_newline in Hc. apply orb_false_iff in Hc. destruct Hc as [Hc _].
    cbn [append lines_from]. rewrite Hc, IH by assumption.
    now rewrite append_assoc.
Qed.

Lemma writerow_plain_row (row : list string) :
  plain_row row -> writerow row = join row ++ lineterminator.
Proof.
  intros [_ Hlen]. destruct row as [|f [|g rest]]; cbn in Hlen; try lia.
  now destruct f.
Qed.

(** The lines that the file of plain rows reads as. *)
Lemma file_lines_write_rows (rows : list (list string)) :
  Forall plain_row rows -> file_lines (write_rows rows) = map row_line rows.
Proof.
  unfold file_lines. intros Hrows.
  assert (Htext : universal_newlines (write_rows rows)
                  = fold_right (fun row t => row_line row ++ t) "" rows).
  { induction Hrows as [|row rows Hrow Hrows IH]; [reflexivity|].
    cbn [write_rows fold_right]. fold (write_rows rows).
    rewrite writerow_plain_row, append_assoc by assumption.
    rewrite universal_newlines_line by (apply join_no_newline, Hrow).
    rewrite IH. unfold row_line. now rewrite append_assoc. }
  rewrite Htext. clear Htext.
  induction Hrows as [|row rows Hrow Hrows IH]; [reflexivity|].
  cbn [fold_right map]. unfold row_line at 1. rewrite append_assoc.
  cbn [str1 append].
  rewrite lines_from_line by (apply join_no_newline, Hrow).
  now rewrite IH.
Qed.

Lemma reader_row_lines (rows : list (list string)) :
  Forall plain_row rows ->
  reader (map row_line rows) = (rows, StopIteration).
Proof.
  unfold reader. induction 1 as [|row rows Hrow Hrows IH]; [reflexivity|].
  cbn [map reader_rows]. unfold row_line at 1.
  destruct Hrow as [Hplain Hlen].
  destruct row as [|f [|g rest]]; cbn in Hlen; try lia.
  rewrite parse_line_row by assumption. cbn [state ParserState_eqb fields].
  now rewrite IH.
Qed.
End CsvFileFacts.

(** ** Numbers as text *)

Lemma int_of_str_of_int (z : Z) : int_of_str (str_of_int z) = Some z.
Proof.
  unfold int_of_str, str_of_int.
  rewrite DecimalString.NilZero.isi.
  - cbn. now rewrite DecimalZ.of_to.
  - destruct z; cbn; intros H; inversion H as [Hnil];
      now apply DecimalPos.Unsigned.to_uint_nonnil in Hnil.
  - destruct z; cbn; intros H; inversion H as [Hnil];
      now apply DecimalPos.Unsigned.to_uint_nonnil in Hnil.
Qed.

Lemma string_of_uint_plain (d : Decimal.uint) :
  plain (DecimalString.NilEmpty.string_of_uint d).
Proof. unfold plain. induction d; cbn; auto. Qed.

Lemma str_of_int_plain (z : Z) : plain (str_of_int z).
Proof.
  unfold str_of_int, DecimalString.NilZero.string_of_int.
  assert (H : forall d, plain (DecimalString.NilZero.string_of_uint d)).
  { intros d. destruct d; try apply string_of_uint_plain. reflexivity. }
  destruct (Z.to_int z) as [d|d]; [apply H|].
  unfold plain. cbn. apply H.
Qed.

#[export] Instance PyTextLaws_int : PyTextLaws Z.
Proof. split; [apply str_of_int_plain | apply int_of_str_of_int]. Qed.

Close Scope string_scope.

(** ** Loading what was saved *)

Section RoundTrip.
Context {R : Type} {N : PyNum R} {T : PyText R}.
Implicit Types (m pre suffix : InventoryManager R) (p : Product R).

Lemma dict_keys_app {V : Type} (d1 d2 : dict V) :
  dict_keys (d1 ++ d2) = dict_keys d1 ++ dict_keys d2.
Proof. apply map_app. Qed.

Lemma dict_get_app_absent {V : Type} (d1 d2 : dict V) (k : string) :
  ~ In k (dict_keys d1) -> dict_get (d1 ++ d2) k = dict_get d2 k.
Proof.
  induction d1 as [|[k' v] d1 IH]; cbn; [reflexivity|]. intros Hnin.
  destruct (String.eqb k k') eqn:Hk.
  - apply String.eqb_eq in Hk. subst. tauto.
  - apply IH. tauto.
Qed.

Lemma dict_update_app_absent {V : Type} (d1 d2 : dict V) (k : string)
    (f : V -> V) :
  ~ In k (dict_keys d1) -> dict_update (d1 ++ d2) k f = d1 ++ dict_update d2 k f.
Proof.
  induction d1 as [|[k' v] d1 IH]; cbn; [reflexivity|]. intros Hnin.
  destruct (String.eqb k k') eqn:Hk.
  - apply String.eqb_eq in Hk. subst. tauto.
  - rewrite IH by tauto. reflexivity.
Qed.

Lemma dict_keys_strip m : dict_keys (map strip_batches m) = dict_keys m.
Proof. unfold dict_keys. rewrite map_map. reflexivity. Qed.

(** Registering the products of [m] one after the other. *)
Lemma registered_like_from suffix :
  forall pre,
    NoDup (dict_keys (pre ++ suffix)) ->
    Forall (fun entry => product_name (snd entry) = fst entry) suffix ->
    fold_left
      (fun m2 p => add_product m2 (product_name p) (holding_cost p)
                     (stockout_penalty p))
      (dict_values suffix) (map strip_batches pre)
    = map strip_batches (pre ++ suffix).
Proof.
  induction suffix as [|[k p] suffix IH]; intros pre Hnd Hnamed.
  - now rewrite app_nil_r.
  - inversion Hnamed as [|? ? Hk Hnamed']; subst. cbn [fst snd] in Hk.
    cbn [dict_values map snd fold_left]. fold (dict_values suffix).
    assert (Hnin : ~ In k (dict_keys pre)).
    { rewrite dict_keys_app in Hnd. cbn in Hnd.
      apply NoDup_remove_2 in Hnd. intros Hin. apply Hnd, in_or_app. now left. }
    unfold add_product at 2. unfold dict_mem.
    rewrite Hk, dict_get_absent by now rewrite dict_keys_strip.
    replace (dict_insert (map strip_batches pre) k
               (new_product k (holding_cost p) (stockout_penalty p)))
      with (map strip_batches (pre ++ [(k, p)])).
    + rewrite IH; [now rewrite <- app_assoc | now rewrite <- app_assoc | assumption].
    + rewrite map_app. unfold dict_insert, strip_batches, set_batches, new_product.
      cbn. now rewrite Hk.
Qed.

Lemma registered_like_strip m :
  well_formed m -> registered_like m = map strip_batches m.
Proof.
  intros [Hnd Hnamed]. unfold registered_like, new_manager.
  now apply (registered_like_from m []).
Qed.

Context {L : PyTextLaws R}.

Lemma batch_eta (b : Batch R) : mkBatch (quantity b) (cost_per_unit b) = b.
Proof. now destruct b. Qed.

(** The rows of one product are appended to it as batches, in order. *)
Lemma load_rows_batches p (bs : list (Batch R)) :
  forall pre (p0 : Product R) rest (tail : list (list string)),
    ~ In (product_name p) (dict_keys pre) ->
    load_rows (pre ++ (product_name p, p0) :: rest)
      (map (batch_row p) bs ++ tail)
    = load_rows
        (pre ++ (product_name p, set_batches p0 (batches p0 ++ bs)) :: rest)
        tail.
Proof.
  induction bs as [|b bs IH]; intros pre p0 rest tail Hnin.
  - cbn [map app]. rewrite app_nil_r. now rewrite set_batches_same.
  - cbn [map app load_rows]. unfold load_row, batch_row.
    unfold dict_mem. rewrite dict_get_app_absent by assumption.
    cbn [dict_get]. rewrite String.eqb_refl.
    rewrite int_of_str_of_int, py_float_str.
    rewrite dict_update_app_absent by assumption.
    cbn [dict_update]. rewrite String.eqb_refl.
    rewrite IH by assumption.
    unfold add_batch, set_batches. cbn [batches product_name holding_cost
      stockout_penalty]. now rewrite batch_eta, <- app_assoc.
Qed.

Lemma load_rows_all suffix :
  forall pre,
    NoDup (dict_keys (pre ++ suffix)) ->
    Forall (fun entry => product_name (snd entry) = fst entry) suffix ->
    load_rows (pre ++ map strip_batches suffix) (data_rows suffix)
    = pre ++ suffix.
Proof.
  induction suffix as [|[k p] suffix IH]; intros pre Hnd Hnamed.
  - reflexivity.
  - inversion Hnamed as [|? ? Hk Hnamed']; subst. cbn [fst snd] in Hk.
    assert (Hnin : ~ In k (dict_keys pre)).
    { rewrite dict_keys_app in Hnd. cbn in Hnd.
      apply NoDup_remove_2 in Hnd. intros Hin. apply Hnd, in_or_app. now left. }
    unfold data_rows. cbn [dict_values map snd flat_map].
    fold (dict_values suffix). fold (data_rows suffix).
    subst k. unfold strip_batches at 1. cbn [fst snd].
    rewrite load_rows_batches by assumption.
    cbn [batches set_batches app product_name holding_cost stockout_penalty].
    replace (set_batches (set_batches p []) (batches p)) with p
      by now destruct p.
    replace (pre ++ (product_name p, p) :: map strip_batches suffix)
      with ((pre ++ [(product_name p, p)]) ++ map strip_batches suffix)
      by now rewrite <- app_assoc.
    rewrite IH; [now rewrite <- app_assoc | now rewrite <- app_assoc | assumption].
Qed.

Lemma data_rows_plain m :
  Forall (fun entry => product_name (snd entry) = fst entry) m ->
  Forall plain (dict_keys m) ->
  Forall plain_row (data_rows m).
Proof.
  intros Hnamed Hplain. unfold data_rows. apply Forall_flat_map.
  induction m as [|[k p] m IH]; [constructor|].
  inversion Hnamed as [|? ? Hk Hnamed']; subst. cbn [fst snd] in Hk.
  cbn [dict_keys map fst] in Hplain. inversion Hplain as [|? ? Hpk Hplain']; subst.
  cbn [dict_values map snd]. constructor; [|now apply IH].
  apply Forall_map, Forall_forall. intros b _. split; [|cbn; lia].
  unfold batch_row.
  constructor; [now rewrite ?Hk|].
  constructor; [apply str_of_int_plain|].
  constructor; [apply py_str_plain | constructor].
Qed.

(** Saving a manager whose product names hold none of comma, double quote,
    carriage return and line feed, and loading the file into a manager with
    the same products and no batches, gives the manager that was saved:
    every product has its batches back, in order, with their quantities
    and costs. *)
Theorem load_after_save_plain m (filename : string) (fs : FileSystem) :
  well_formed m ->
  Forall plain (dict_keys m) ->
  load_from_csv (registered_like m) filename (save_to_csv m filename fs) = m.
Proof.
  intros Hwf Hplain. destruct (Hwf) as [Hnd Hnamed].
  unfold load_from_csv, save_to_csv, write_file. rewrite String.eqb_refl.
  unfold csv_text. rewrite file_lines_write_rows.
  - rewrite reader_row_lines.
    + cbn [fst]. rewrite registered_like_strip by assumption.
      now apply (load_rows_all m []).
    + constructor; [|now apply data_rows_plain].
      split; [repeat constructor | cbn; lia].
  - constructor; [|now apply data_rows_plain].
    split; [repeat constructor | cbn; lia].
Qed.
End RoundTrip.

Lemma load_after_save_plain_witness :
  well_formed shop
  /\ Forall plain (dict_keys shop)
  /\ load_from_csv (registered_like shop) "inventory_status.csv"
       (save_to_csv shop "inventory_status.csv" no_files) = shop.
Proof.
  assert (Hwf : well_formed shop).
  { split; [|repeat constructor].
    repeat constructor; cbn; intuition discriminate. }
  assert (Hplain : Forall plain (dict_keys shop)) by (repeat constructor).
  split; [exact Hwf|]. split; [exact Hplain|].
  exact (load_after_save_plain shop "inventory_status.csv" no_files Hwf Hplain).
Defined.

(** ** The scenario of the specification *)

(** With the batches of 5 units at 2.0 and 3 units at 2.5,
    [fulfill_demand(4)] uses up the batch of 3, takes 1 unit from the
    batch of 5 and returns 0; [fulfill_demand(10)] then empties the
    stock and returns [(10 - 4) * 10.0 = 60.0]. *)
Theorem widget_scenario :
  batches widget_float = [mkBatch 5 2%float; mkBatch 3 2.5%float]
  /\ fulfill_demand widget_float 4
     = (set_batches widget_float [mkBatch 4 2%float], of_int 0)
  /\ fulfill_demand (fst (fulfill_demand widget_float 4)) 10
     = (set_batches widget_float [], 60%float).
Proof. repeat split; vm_compute; reflexivity. Qed.

(** ** More on fulfilment *)

Section MoreFulfilment.
Context {R : Type} {N : PyNum R}.
Implicit Types (p : Product R) (b : Batch R) (s l : list (Batch R)).

(** A demand that the newest batch covers touches this batch only; a
    demand of exactly its quantity takes the restock back. *)
Theorem fulfill_demand_after_add_batch p (q d : Z) (c : R) :
  0 < d <= q ->
  fulfill_demand (add_batch p q c) d
  = (if d =? q then p
     else set_batches p (batches p ++ [mkBatch (q - d) c]),
     of_int 0).
Proof.
  intros [Hd Hq]. rewrite fulfill_demand_pos by assumption.
  cbn [add_batch batches set_batches stockout_penalty].
  rewrite rev_unit. cbn [deplete quantity].
  replace (q >=? d) with true by (symmetry; rewrite Z.geb_leb; now apply Z.leb_le).
  cbn [fst snd]. rewrite Z.ltb_irrefl. f_equal.
  destruct (Z.eqb_spec d q) as [->|Hne].
  - rewrite Z.sub_diag, Z.eqb_refl. rewrite rev_involutive.
    now destruct p.
  - replace (q - d =? 0) with false by (symmetry; apply Z.eqb_neq; lia).
    cbn [rev]. now rewrite rev_involutive.
Qed.

Lemma deplete_unmet_nonneg s :
  forall need, 0 < need -> 0 <= snd (deplete need s).
Proof.
  induction s as [|b s IH]; intros need Hneed; cbn; [lia|].
  destruct (quantity b >=? need) eqn:Hq; [cbn; lia|].
  rewrite Z.geb_leb in Hq. apply Z.leb_gt in Hq. apply IH. lia.
Qed.

(** Two depletions in a row are one depletion of the sum. *)
Lemma deplete_split s :
  forall d1 d2, 0 < d1 -> 0 < d2 ->
    fst (deplete d2 (fst (deplete d1 s))) = fst (deplete (d1 + d2) s)
    /\ snd (deplete d1 s) + snd (deplete d2 (fst (deplete d1 s)))
       = snd (deplete (d1 + d2) s).
Proof.
  induction s as [|b s IH]; intros d1 d2 H1 H2.
  - cbn. split; [reflexivity | lia].
  - cbn [deplete].
    destruct (quantity b >=? d1) eqn:Hq1; rewrite Z.geb_leb in Hq1.
    + apply Z.leb_le in Hq1. cbn [fst snd].
      destruct (quantity b - d1 =? 0) eqn:Hz.
      * apply Z.eqb_eq in Hz.
        replace (quantity b >=? d1 + d2) with false
          by (symmetry; rewrite Z.geb_leb; apply Z.leb_gt; lia).
        replace (d1 + d2 - quantity b) with d2 by lia.
        split; [reflexivity | lia].
      * apply Z.eqb_neq in Hz. cbn [deplete quantity set_quantity].
        destruct (quantity b - d1 >=? d2) eqn:Hq2; rewrite Z.geb_leb in Hq2.
        -- apply Z.leb_le in Hq2.
           replace (quantity b >=? d1 + d2) with true
             by (symmetry; rewrite Z.geb_leb; apply Z.leb_le; lia).
           cbn [fst snd].
           replace (quantity b - d1 - d2) with (quantity b - (d1 + d2)) by lia.
           split; [|lia].
           destruct (quantity b - (d1 + d2) =? 0); reflexivity.
        -- apply Z.leb_gt in Hq2.
           replace (quantity b >=? d1 + d2) with false
             by (symmetry; rewrite Z.geb_leb; apply Z.leb_gt; lia).
           replace (d2 - (quantity b - d1)) with (d1 + d2 - quantity b) by lia.
           split; [reflexivity | lia].
    + apply Z.leb_gt in Hq1.
      replace (quantity b >=? d1 + d2) with false
        by (symmetry; rewrite Z.geb_leb; apply Z.leb_gt; lia).
      replace (d1 + d2 - quantity b) with ((d1 - quantity b) + d2) by lia.
      apply IH; lia.
Qed.

(** A demand served in two calls leaves the batches that one call for the
    whole demand leaves. *)
Theorem fulfill_demand_split_stock p (d1 d2 : Z) :
  0 <= d1 -> 0 <= d2 ->
  fst (fulfill_demand (fst (fulfill_demand p d1)) d2)
  = fst (fulfill_demand p (d1 + d2)).
Proof.
  intros H1 H2.
  destruct (Z.eq_dec d1 0) as [->|Hn1].
  { now rewrite (fulfill_demand_nonpos p 0) by lia. }
  destruct (Z.eq_dec d2 0) as [->|Hn2].
  { rewrite Z.add_0_r. now rewrite fulfill_demand_nonpos by lia. }
  rewrite (fulfill_demand_pos p d1), (fulfill_demand_pos p (d1 + d2)) by lia.
  cbn [fst]. rewrite fulfill_demand_pos by lia.
  cbn [fst batches set_batches]. rewrite rev_involutive.
  destruct (deplete_split (rev (batches p)) d1 d2) as [Hs _]; [lia | lia |].
  now rewrite Hs.
Qed.

(** A demand within the stock costs nothing and takes its units. *)
Lemma fulfill_demand_covered p (d : Z) :
  0 <= d <= total_stock (batches p) ->
  snd (fulfill_demand p d) = of_int 0
  /\ total_stock (batches p)
     - total_stock (batches (fst (fulfill_demand p d))) = d.
Proof.
  intros [Hd Hle]. destruct (Z.eq_dec d 0) as [->|Hnz].
  - rewrite fulfill_demand_nonpos by lia. cbn [fst snd]. split; [reflexivity | lia].
  - rewrite fulfill_demand_pos by lia. cbn [fst snd batches set_batches].
    pose proof (deplete_total (rev (batches p)) d ltac:(lia)) as Htot.
    rewrite deplete_covered in * by (rewrite ?total_stock_rev; lia).
    rewrite !total_stock_rev in *. split; [reflexivity | lia].
Qed.

(** The batches keep non-negative quantities, and the stock that is left
    is what the demand did not take. *)
Theorem fulfill_demand_stock_left p (d : Z) :
  quantities_nonneg (batches p) ->
  quantities_nonneg (batches (fst (fulfill_demand p d)))
  /\ total_stock (batches (fst (fulfill_demand p d)))
     = Z.max 0 (total_stock (batches p) - Z.max 0 d).
Proof.
  intros Hq. pose proof (total_stock_nonneg _ Hq) as H0. split.
  - destruct (fulfill_demand_shape p d) as (kept & touched & Hs & _ & Hres).
    unfold quantities_nonneg in *. rewrite Hs in Hq.
    apply Forall_app in Hq. destruct Hq as [Hkept _].
    destruct Hres as [-> | (b & removed & q' & _ & -> & Hq')]; [assumption|].
    apply Forall_app. split; [assumption|].
    constructor; [cbn; lia | constructor].
  - destruct (Z.le_gt_cases d 0) as [Hd|Hd].
    + rewrite fulfill_demand_nonpos by assumption. cbn [fst]. lia.
    + destruct (Z.le_gt_cases d (total_stock (batches p))) as [Hle|Hgt].
      * pose proof (fulfill_demand_covered p d ltac:(lia)) as [_ Htot]. lia.
      * rewrite fulfill_demand_pos by assumption.
        rewrite deplete_short
          by (rewrite ?total_stock_rev; auto using quantities_nonneg_rev).
        cbn. lia.
Qed.

Lemma calculate_holding_cost_add_batch p (q : Z) (c : R) :
  calculate_holding_cost (add_batch p q c)
  = py_add (calculate_holding_cost p) (py_mul (of_int q) (holding_cost p)).
Proof.
  unfold calculate_holding_cost. cbn [add_batch batches set_batches holding_cost].
  now rewrite fold_left_app.
Qed.

Context {E : ExactNum R}.

Lemma stockout_cost_unmet p (d : Z) :
  0 < d ->
  snd (fulfill_demand p d)
  = py_mul (of_int (snd (deplete d (rev (batches p))))) (stockout_penalty p).
Proof.
  intros Hd. rewrite fulfill_demand_pos by assumption. cbn [snd].
  pose proof (deplete_unmet_nonneg (rev (batches p)) d Hd) as Hu.
  destruct (0 <? snd (deplete d (rev (batches p)))) eqn:Hlt; [reflexivity|].
  apply Z.ltb_ge in Hlt.
  replace (snd (deplete d (rev (batches p)))) with 0 by lia.
  now rewrite py_mul_0_l.
Qed.

(** In exact arithmetic the stock-out costs of the two calls add up to the
    stock-out cost of the one call. *)
Theorem fulfill_demand_split_cost p (d1 d2 : Z) :
  0 <= d1 -> 0 <= d2 ->
  py_add (snd (fulfill_demand p d1))
    (snd (fulfill_demand (fst (fulfill_demand p d1)) d2))
  = snd (fulfill_demand p (d1 + d2)).
Proof.
  intros H1 H2.
  destruct (Z.eq_dec d1 0) as [->|Hn1].
  { rewrite (fulfill_demand_nonpos p 0) by lia. cbn [fst snd].
    now rewrite py_add_0_l. }
  destruct (Z.eq_dec d2 0) as [->|Hn2].
  { rewrite Z.add_0_r. rewrite (fulfill_demand_nonpos _ 0) by lia.
    cbn [snd]. apply py_add_0_r. }
  rewrite !stockout_cost_unmet by lia.
  rewrite (fulfill_demand_pos p d1) by lia.
  cbn [fst batches set_batches stockout_penalty]. rewrite rev_involutive.
  destruct (deplete_split (rev (batches p)) d1 d2) as [_ Hu]; [lia | lia |].
  now rewrite <- Hu, of_int_add, py_mul_add_distr_r.
Qed.

(** In exact arithmetic every unit that a restock adds raises the holding
    cost by the holding rate, and every unit that a demand within the
    stock takes lowers it by the holding rate. *)
Theorem calculate_holding_cost_tracks_stock p (q d : Z) (c : R) :
  0 <= d <= total_stock (batches p) ->
  calculate_holding_cost (add_batch p q c)
  = py_add (calculate_holding_cost p) (py_mul (of_int q) (holding_cost p))
  /\ calculate_holding_cost p
     = py_add (calculate_holding_cost (fst (fulfill_demand p d)))
         (py_mul (of_int d) (holding_cost p)).
Proof.
  intros Hd. split; [apply calculate_holding_cost_add_batch|].
  destruct (fulfill_demand_covered p d Hd) as [_ Htot].
  rewrite !calculate_holding_cost_total.
  rewrite fulfill_demand_fst at 2. cbn [holding_cost set_batches].
  rewrite <- py_mul_add_distr_r, <- of_int_add. f_equal. f_equal. lia.
Qed.
End MoreFulfilment.

(** ** More on the manager *)

Section MoreManager.
Context {R : Type} {N : PyNum R}.
Implicit Types (m : InventoryManager R) (demand : dict Z).

(** [restock_product] appends the batch to the product under the name and
    to no other; for a name that is not registered it changes nothing; it
    never registers or removes a product. *)
Theorem restock_product_lookup m (name name' : string) (q : Z) (c : R) :
  dict_get (restock_product m name q c) name'
  = (if String.eqb name' name
     then option_map (fun p => add_batch p q c) (dict_get m name)
     else dict_get m name')
  /\ dict_keys (restock_product m name q c) = dict_keys m
  /\ (dict_mem m name = false -> restock_product m name q c = m).
Proof.
  unfold restock_product, dict_mem.
  destruct (dict_get m name) as [p|] eqn:Hget; cbn [negb].
  - split; [|split; [apply dict_keys_update | discriminate]].
    destruct (String.eqb_spec name' name) as [->|Hne].
    + now rewrite dict_get_update_same, Hget.
    + now apply dict_get_update_other.
  - split; [|split; reflexivity].
    destruct (String.eqb_spec name' name) as [->|Hne]; [assumption | reflexivity].
Qed.

(** [add_product] with a new name registers, after the products that are
    there, a product with the given parameters and no batches, and leaves
    every other name as it was. *)
Theorem add_product_new m (name : string) (holding penalty : R) :
  dict_mem m name = false ->
  dict_get (add_product m name holding penalty) name
  = Some (mkProduct name holding penalty [])
  /\ (forall name', name' <> name ->
        dict_get (add_product m name holding penalty) name' = dict_get m name')
  /\ dict_keys (add_product m name holding penalty) = dict_keys m ++ [name].
Proof.
  intros Hmem. unfold add_product. rewrite Hmem. unfold dict_insert.
  pose proof (dict_mem_false_absent m name Hmem) as Hnin.
  split; [|split].
  - rewrite dict_get_app_absent by assumption. cbn. now rewrite String.eqb_refl.
  - intros name' Hne. induction m as [|[k v] m IH]; cbn.
    + now replace (String.eqb name' name) with false
        by (symmetry; now apply String.eqb_neq).
    + destruct (String.eqb name' k); [reflexivity|]. apply IH.
      * unfold dict_mem in *. cbn in Hmem.
        destruct (String.eqb name k); [discriminate | assumption].
      * cbn in Hnin. tauto.
  - apply dict_keys_app.
Qed.

Lemma well_formed_update m (k : string) (f : Product R -> Product R) :
  (forall p, product_name (f p) = product_name p) ->
  well_formed m -> well_formed (dict_update m k f).
Proof.
  intros Hf [Hnd Hnamed]. split; [now rewrite dict_keys_update|].
  clear Hnd. induction Hnamed as [|[k' p] m Hp Hm IH]; cbn; [constructor|].
  destruct (String.eqb k k').
  - constructor; [cbn in *; now rewrite Hf | assumption].
  - constructor; assumption.
Qed.

Lemma well_formed_replace m (k : string) (p p' : Product R) :
  dict_get m k = Some p -> product_name p' = product_name p ->
  well_formed m -> well_formed (dict_update m k (fun _ => p')).
Proof.
  intros Hget Hname [Hnd Hnamed]. split; [now rewrite dict_keys_update|].
  clear Hnd. revert Hget.
  induction Hnamed as [|[k' v] m Hv Hm IH]; cbn; intros Hget; [constructor|].
  destruct (String.eqb k k').
  - injection Hget as ->. constructor; [cbn in *; congruence | assumption].
  - constructor; [assumption | now apply IH].
Qed.

Lemma well_formed_demand_fold demand :
  forall m (acc : R),
    well_formed m -> well_formed (fst (fold_left demand_step demand (m, acc))).
Proof.
  induction demand as [|[name amount] demand IH]; intros m acc Hwf; [assumption|].
  cbn [fold_left]. unfold demand_step at 2.
  destruct (dict_get m name) as [p|] eqn:Hget; [|now apply IH].
  destruct (fulfill_demand p amount) as [p' cost] eqn:Hf.
  apply IH. apply (well_formed_replace m name p p' Hget); [|assumption].
  change p' with (fst (p', cost)). rewrite <- Hf.
  now rewrite fulfill_demand_fst.
Qed.

(** Every product is registered under its own name, once: a new manager
    is so, and registering, restocking and a simulated day keep it so. *)
Theorem well_formed_preserved m (name : string) (holding penalty : R)
    (q : Z) (c : R) demand :
  well_formed m ->
  well_formed (@new_manager R)
  /\ well_formed (add_product m name holding penalty)
  /\ well_formed (restock_product m name q c)
  /\ well_formed (fst (simulate_day m demand)).
Proof.
  intros Hwf. split; [split; constructor|]. split; [|split].
  - unfold add_product. destruct (dict_mem m name) eqn:Hmem; [assumption|].
    split.
    + pose proof (add_product_keys_unique m name holding penalty (proj1 Hwf)) as H.
      unfold add_product in H. now rewrite Hmem in H.
    + unfold dict_insert. apply Forall_app. split; [apply Hwf|].
      now repeat constructor.
  - unfold restock_product. destruct (negb (dict_mem m name)); [assumption|].
    now apply well_formed_update.
  - rewrite simulate_day_eq. cbn [fst]. now apply well_formed_demand_fold.
Qed.
End MoreManager.

(** ** Demand simulation *)

Lemma dict_mem_absent {V : Type} (d : dict V) (k : string) :
  ~ In k (dict_keys d) -> dict_mem d k = false.
Proof. intros H. unfold dict_mem. now rewrite dict_get_absent. Qed.

Lemma dict_mem_present {V : Type} (d : dict V) (k : string) :
  In k (dict_keys d) -> dict_mem d k = true.
Proof.
  intros Hin. destruct (dict_mem d k) eqn:Hmem; [reflexivity|].
  now apply dict_mem_false_absent in Hmem.
Qed.

Section DemandFacts.
Context {R : Type} {N : PyNum R} {G : Type}.
Variable randint : G -> Z -> Z -> option (Z * G).
Hypothesis randint_ok : randint_contract randint.

Lemma simulate_demand_loop_range (min_demand max_demand : Z) (names : list string) :
  min_demand <= max_demand ->
  forall (g : G) (acc : dict Z),
    NoDup (dict_keys acc ++ names) ->
    Forall (fun entry => min_demand <= snd entry <= max_demand) acc ->
    exists demand g',
      simulate_demand_loop randint names min_demand max_demand g acc
      = Some (demand, g')
      /\ dict_keys demand = dict_keys acc ++ names
      /\ Forall (fun entry => min_demand <= snd entry <= max_demand) demand.
Proof.
  intros Hrange. induction names as [|name names IH]; intros g acc Hnd Hacc.
  - exists acc, g. cbn. now rewrite app_nil_r.
  - cbn [simulate_demand_loop].
    pose proof (randint_ok g min_demand max_demand) as Hdraw.
    destruct (randint g min_demand max_demand) as [[n g']|]; [|lia].
    assert (Hnew : ~ In name (dict_keys acc)).
    { apply NoDup_remove_2 in Hnd. intros Hin. apply Hnd, in_or_app. now left. }
    unfold dict_set. rewrite dict_mem_absent by assumption.
    destruct (IH g' (dict_insert acc name n)) as (demand & g'' & Hrun & Hkeys & Hall).
    + unfold dict_insert. rewrite dict_keys_app. cbn. now rewrite <- app_assoc.
    + unfold dict_insert. apply Forall_app. split; [assumption|].
      now repeat constructor.
    + exists demand, g''. split; [assumption|]. split; [|assumption].
      rewrite Hkeys. unfold dict_insert. rewrite dict_keys_app. cbn.
      now rewrite <- app_assoc.
Qed.

(** [simulate_demand] with [min_demand <= max_demand] draws one demand of
    the range for every registered product, in the order of the
    products, so that every entry of the result names a registered
    product; with [min_demand > max_demand] it raises [ValueError] as
    soon as there is a product to draw for, and gives the empty dict when
    there is none. *)
Theorem simulate_demand_covers (m : InventoryManager R)
    (min_demand max_demand : Z) (g : G) :
  NoDup (dict_keys m) ->
  (min_demand <= max_demand ->
   exists demand g',
     simulate_demand randint m min_demand max_demand g = Some (demand, g')
     /\ dict_keys demand = dict_keys m
     /\ Forall (fun entry => min_demand <= snd entry <= max_demand) demand
     /\ known_demand m demand = demand)
  /\ (max_demand < min_demand ->
      simulate_demand randint m min_demand max_demand g
      = match m with
        | [] => Some ([], g)
        | _ :: _ => None
        end).
Proof.
  intros Hnd. split.
  - intros Hrange.
    destruct (simulate_demand_loop_range min_demand max_demand (dict_keys m)
                Hrange g [] Hnd (Forall_nil _))
      as (demand & g' & Hrun & Hkeys & Hall).
    exists demand, g'. split; [exact Hrun|]. split; [exact Hkeys|].
    split; [exact Hall|].
    unfold known_demand. apply forallb_filter_id. apply forallb_forall.
    intros entry Hin. apply dict_mem_present. cbn in Hkeys. rewrite <- Hkeys.
    now apply in_map.
  - intros Hempty. unfold simulate_demand.
    destruct m as [|[name p] m]; [reflexivity|]. cbn.
    pose proof (randint_ok g min_demand max_demand) as Hdraw.
    destruct (randint g min_demand max_demand) as [[n g']|]; [lia | reflexivity].
Qed.
End DemandFacts.

Lemma walk_randint_contract : randint_contract walk_randint.
Proof.
  intros g a b. unfold walk_randint.
  destruct (a <=? b) eqn:Hab.
  - apply Z.leb_le in Hab.
    pose proof (Z.mod_pos_bound (Z.of_nat g) (b - a + 1) ltac:(lia)). lia.
  - now apply Z.leb_gt in Hab.
Qed.

Lemma simulate_demand_covers_witness :
  NoDup (dict_keys shop)
  /\ simulate_demand walk_randint shop 10 25 7%nat
     = Some ([("Widget", 17); ("Gadget", 18)]%string, 9%nat)
  /\ simulate_demand walk_randint shop 25 10 7%nat = None.
Proof.
  assert (Hnd : NoDup (dict_keys shop)).
  { repeat constructor; cbn; intuition discriminate. }
  split; [exact Hnd|]. split; [reflexivity|].
  exact (proj2 (simulate_demand_covers walk_randint walk_randint_contract
                  shop 25 10 7%nat Hnd) ltac:(lia)).
Defined.

(** ** What loading does to a manager *)

Section DictUpdateFacts.
Context {V : Type}.
Implicit Types (d : dict V) (k : string) (f g : V -> V).

Lemma dict_update_ext d k f g :
  (forall v, f v = g v) -> dict_update d k f = dict_update d k g.
Proof.
  intros Hfg. induction d as [|[k' v] d IH]; cbn; [reflexivity|].
  destruct (String.eqb k k'); [now rewrite Hfg | now rewrite IH].
Qed.

Lemma dict_update_id d k f : (forall v, f v = v) -> dict_update d k f = d.
Proof.
  intros Hf. induction d as [|[k' v] d IH]; cbn; [reflexivity|].
  destruct (String.eqb k k'); [now rewrite Hf | now rewrite IH].
Qed.

Lemma dict_update_compose d k f g :
  dict_update (dict_update d k f) k g = dict_update d k (fun v => g (f v)).
Proof.
  induction d as [|[k' v] d IH]; cbn; [reflexivity|].
  destruct (String.eqb k k') eqn:Hk; cbn; rewrite Hk; [reflexivity|].
  now rewrite IH.
Qed.

Lemma dict_update_absent d k f : dict_mem d k = false -> dict_update d k f = d.
Proof.
  unfold dict_mem. induction d as [|[k' v] d IH]; cbn; [reflexivity|].
  destruct (String.eqb k k'); [discriminate|]. intros H. now rewrite IH.
Qed.

(** With unique keys an update is a map over the entries. *)
Lemma dict_update_map d k f :
  NoDup (dict_keys d) ->
  dict_update d k f
  = map (fun entry =>
           if String.eqb k (fst entry) then (fst entry, f (snd entry))
           else entry) d.
Proof.
  induction d as [|[k' v] d IH]; cbn; intros Hnd; [reflexivity|].
  inversion Hnd as [|? ? Hk' Hnd']; subst.
  destruct (String.eqb k k') eqn:Hk.
  - apply String.eqb_eq in Hk. subst k'. f_equal.
    rewrite <- (dict_update_absent d k f) at 1 by now apply dict_mem_absent.
    now apply IH.
  - now rewrite IH.
Qed.

Lemma dict_mem_keys {W : Type} d (d' : dict W) k :
  dict_keys d = dict_keys d' -> dict_mem d k = dict_mem d' k.
Proof.
  intros Hkeys. destruct (dict_mem d' k) eqn:Hmem.
  - apply dict_mem_present. rewrite Hkeys.
    destruct (in_dec string_dec k (dict_keys d')) as [Hin|Hnin]; [assumption|].
    apply dict_mem_absent in Hnin. congruence.
  - apply dict_mem_absent. rewrite Hkeys. now apply dict_mem_false_absent.
Qed.
End DictUpdateFacts.

Section LoadFacts.
Context {R : Type} {N : PyNum R} {T : PyText R}.
Implicit Types (m cur src : InventoryManager R) (p : Product R).

Lemma set_batches_app_nil p : set_batches p (batches p ++ []) = p.
Proof. rewrite app_nil_r. apply set_batches_same. Qed.

Lemma grown_from_refl m : grown_from m m.
Proof.
  induction m as [|[k p] m IH]; constructor; [|assumption].
  split; [reflexivity|]. exists []. cbn. now rewrite set_batches_app_nil.
Qed.

Lemma grown_from_trans m1 m2 m3 :
  grown_from m1 m2 -> grown_from m2 m3 -> grown_from m1 m3.
Proof.
  intros H12. revert m3. induction H12 as [|e1 e2 m1 m2 [Hk [a Ha]] H12 IH];
    intros m3 H23; inversion H23 as [|? e3 ? m3' [Hk' [a' Ha']] H23']; subst.
  - constructor.
  - constructor; [|now apply IH]. split; [congruence|].
    exists (a ++ a'). rewrite Ha', Ha. cbn. now rewrite app_assoc.
Qed.

Lemma grown_from_update m (k : string) (f : Product R -> Product R) :
  (forall p, exists added, f p = set_batches p (batches p ++ added)) ->
  grown_from m (dict_update m k f).
Proof.
  intros Hf. induction m as [|[k' p] m IH]; cbn; [constructor|].
  destruct (String.eqb k k').
  - constructor; [|apply grown_from_refl]. split; [reflexivity|]. apply Hf.
  - constructor; [|assumption]. split; [reflexivity|].
    exists []. cbn. now rewrite set_batches_app_nil.
Qed.

Lemma grown_from_keys m m' : grown_from m m' -> dict_keys m' = dict_keys m.
Proof.
  unfold dict_keys.
  induction 1 as [|e e' m m' [Hk _] _ IH]; cbn [map]; [reflexivity|].
  now rewrite Hk, IH.
Qed.

Lemma grown_from_lookup m m' (name : string) p :
  grown_from m m' -> dict_get m name = Some p ->
  exists added, dict_get m' name = Some (set_batches p (batches p ++ added)).
Proof.
  induction 1 as [|[k v] [k' v'] m m' [Hk [a Ha]] _ IH]; cbn; [discriminate|].
  cbn in Hk, Ha. subst k'. destruct (String.eqb name k); [|assumption].
  intros [= ->]. exists a. now rewrite Ha.
Qed.

Lemma well_formed_grown m m' : grown_from m m' -> well_formed m -> well_formed m'.
Proof.
  intros Hg [Hnd Hnamed]. split; [now rewrite (grown_from_keys m m' Hg)|].
  clear Hnd. induction Hg as [|e e' m m' [Hk [a Ha]] _ IH]; [constructor|].
  inversion Hnamed as [|? ? He Hm]; subst.
  constructor; [|now apply IH]. rewrite Ha, Hk. exact He.
Qed.

Lemma load_row_grows m row m' : load_row m row = Some m' -> grown_from m m'.
Proof.
  unfold load_row. destruct row as [|name [|q [|c [|]]]]; try discriminate.
  destruct (dict_mem m name).
  - destruct (int_of_str q) as [q'|]; [|discriminate].
    destruct (py_float c) as [c'|]; [|discriminate].
    intros [= <-]. apply grown_from_update. intros p. now exists [mkBatch q' c'].
  - intros [= <-]. apply grown_from_refl.
Qed.

Lemma load_rows_grows rows : forall m, grown_from m (load_rows m rows).
Proof.
  induction rows as [|row rows IH]; intros m; cbn; [apply grown_from_refl|].
  destruct (load_row m row) as [m'|] eqn:Hrow; [|apply grown_from_refl].
  eapply grown_from_trans; [exact (load_row_grows m row m' Hrow) | apply IH].
Qed.

(** Whatever the file holds, [load_from_csv] only appends batches: the
    manager keeps its products, in order and under their names, each with
    its parameters and the batches it had, in place; a missing file leaves
    the manager as it is; products registered once, each under its own
    name, stay so. *)
Theorem load_from_csv_appends m (filename : string) (fs : FileSystem) :
  grown_from m (load_from_csv m filename fs)
  /\ dict_keys (load_from_csv m filename fs) = dict_keys m
  /\ (forall name p,
        dict_get m name = Some p ->
        exists added,
          dict_get (load_from_csv m filename fs) name
          = Some (set_batches p (batches p ++ added)))
  /\ (fs filename = None -> load_from_csv m filename fs = m)
  /\ (well_formed m -> well_formed (load_from_csv m filename fs)).
Proof.
  assert (Hg : grown_from m (load_from_csv m filename fs)).
  { unfold load_from_csv. destruct (fs filename) as [text|]; [|apply grown_from_refl].
    destruct (fst (csv.reader (file_lines text))) as [|first rows];
      [apply grown_from_refl | apply load_rows_grows]. }
  split; [exact Hg|]. split; [now apply grown_from_keys|].
  split; [intros name p; now apply grown_from_lookup|].
  split; [unfold load_from_csv; now intros ->|].
  now apply well_formed_grown.
Qed.

(** *** A row that cannot be loaded *)

Lemma load_row_keys m row m' :
  load_row m row = Some m' -> dict_keys m' = dict_keys m.
Proof. intros H. apply grown_from_keys. now apply load_row_grows in H. Qed.

Lemma load_row_bad m m' row :
  bad_row m row -> dict_keys m' = dict_keys m -> load_row m' row = None.
Proof.
  intros [Hlen | (name & q & c & -> & Hmem & Hbad)] Hkeys.
  - unfold load_row. destruct row as [|a [|b [|c [|]]]]; cbn in Hlen; congruence.
  - unfold load_row. rewrite (dict_mem_keys m' m name Hkeys), Hmem.
    destruct Hbad as [-> | Hc]; [reflexivity|].
    rewrite Hc. now destruct (int_of_str q).
Qed.

Lemma load_rows_stops (rows1 rows2 : list (list string)) (bad : list string) :
  forall m m',
    bad_row m bad -> dict_keys m' = dict_keys m ->
    load_rows m' (rows1 ++ bad :: rows2) = load_rows m' rows1.
Proof.
  induction rows1 as [|row rows1 IH]; intros m m' Hbad Hkeys; cbn.
  - now rewrite (load_row_bad m m' bad).
  - destruct (load_row m' row) as [m''|] eqn:Hrow; [|reflexivity].
    apply (IH m); [assumption|]. apply load_row_keys in Hrow. congruence.
Qed.

End LoadFacts.

(** ** Saved rows, loaded into any manager *)

Section LoadInto.
Context {R : Type} {N : PyNum R} {T : PyText R} {L : PyTextLaws R}.
Implicit Types (m cur src : InventoryManager R) (p : Product R).

(** The rows of one product go, as batches, to the product that the
    manager holds under this name, when there is one. *)
Lemma load_rows_product p (bs : list (Batch R)) :
  forall cur (tail : list (list string)),
    load_rows cur (map (batch_row p) bs ++ tail)
    = load_rows
        (dict_update cur (product_name p)
           (fun p0 => set_batches p0 (batches p0 ++ bs)))
        tail.
Proof.
  induction bs as [|b bs IH]; intros cur tail.
  - cbn [map app]. now rewrite dict_update_id by apply set_batches_app_nil.
  - cbn [map app load_rows]. unfold load_row, batch_row.
    destruct (dict_mem cur (product_name p)) eqn:Hmem.
    + rewrite int_of_str_of_int, py_float_str, IH, dict_update_compose.
      f_equal. apply dict_update_ext. intros p0.
      unfold add_batch, set_batches. cbn. now rewrite batch_eta, <- app_assoc.
    + rewrite IH. now rewrite !dict_update_absent by assumption.
Qed.

Lemma load_rows_data src :
  forall cur,
    Forall (fun entry => product_name (snd entry) = fst entry) src ->
    load_rows cur (data_rows src)
    = fold_left
        (fun c entry =>
           dict_update c (fst entry)
             (fun p0 => set_batches p0 (batches p0 ++ batches (snd entry))))
        src cur.
Proof.
  induction src as [|[k p] src IH]; intros cur Hnamed; [reflexivity|].
  inversion Hnamed as [|? ? Hk Hnamed']; subst. cbn [fst snd] in Hk.
  unfold data_rows. cbn [dict_values map snd flat_map fold_left fst].
  fold (dict_values src). fold (data_rows src).
  rewrite load_rows_product, Hk. now apply IH.
Qed.

Lemma fold_updates_map src :
  forall cur,
    NoDup (dict_keys src) -> NoDup (dict_keys cur) ->
    fold_left
      (fun c entry =>
         dict_update c (fst entry)
           (fun p0 => set_batches p0 (batches p0 ++ batches (snd entry))))
      src cur
    = map (append_saved src) cur.
Proof.
  induction src as [|[k p] src IH]; intros cur Hsrc Hcur.
  - cbn. rewrite <- (map_id cur) at 1. apply map_ext. intros [k0 p0].
    unfold append_saved. cbn. now rewrite set_batches_app_nil.
  - cbn [dict_keys map fst] in Hsrc. inversion Hsrc as [|? ? Hk Hsrc']; subst.
    cbn [fold_left fst snd].
    rewrite IH by (assumption || now rewrite dict_keys_update).
    rewrite dict_update_map by assumption. rewrite map_map.
    apply map_ext. intros [k0 p0]. cbn [fst snd].
    unfold append_saved. cbn [dict_get fst snd].
    rewrite (String.eqb_sym k0 k).
    destruct (String.eqb k k0) eqn:Hkk; cbn [fst snd]; [|reflexivity].
    apply String.eqb_eq in Hkk. subst k0.
    rewrite (dict_get_absent src k Hk). cbn [batches set_batches app].
    now rewrite app_nil_r.
Qed.

End LoadInto.


(** ** Instances of the properties above *)

Lemma fulfill_demand_after_add_batch_witness :
  0 < 3 <= 3
  /\ fulfill_demand
       (add_batch (add_batch (new_product "Widget" 1 10) 5 200) 3 250) 3
     = (add_batch (new_product "Widget" 1 10) 5 200, 0).
Proof.
  assert (H : 0 < 3 <= 3) by lia.
  split; [exact H|].
  exact (fulfill_demand_after_add_batch
           (add_batch (new_product "Widget" 1 10) 5 200) 3 3 250 H).
Defined.

Lemma fulfill_demand_split_stock_witness :
  0 <= 4 /\ 0 <= 2
  /\ fst (fulfill_demand (fst (fulfill_demand widget 4)) 2)
     = fst (fulfill_demand widget 6).
Proof.
  assert (H1 : 0 <= 4) by lia. assert (H2 : 0 <= 2) by lia.
  split; [exact H1|]. split; [exact H2|].
  exact (fulfill_demand_split_stock widget 4 2 H1 H2).
Defined.

Lemma fulfill_demand_split_cost_witness :
  0 <= 6 /\ 0 <= 5
  /\ snd (fulfill_demand widget 6) = 0
  /\ snd (fulfill_demand (fst (fulfill_demand widget 6)) 5) = 30
  /\ snd (fulfill_demand widget 11) = 30.
Proof.
  assert (H1 : 0 <= 6) by lia. assert (H2 : 0 <= 5) by lia.
  split; [exact H1|]. split; [exact H2|].
  split; [reflexivity|]. split; [reflexivity|].
  exact (eq_trans (eq_sym (fulfill_demand_split_cost widget 6 5 H1 H2)) eq_refl).
Defined.

Lemma fulfill_demand_stock_left_witness :
  quantities_nonneg (batches widget)
  /\ total_stock (batches (fst (fulfill_demand widget 6))) = 2.
Proof.
  assert (Hq : quantities_nonneg (batches widget))
    by (repeat constructor; cbn; lia).
  split; [exact Hq|].
  exact (eq_trans (proj2 (fulfill_demand_stock_left widget 6 Hq)) eq_refl).
Defined.

Lemma calculate_holding_cost_tracks_stock_witness :
  0 <= 6 <= total_stock (batches widget)
  /\ calculate_holding_cost (add_batch widget 4 300) = 12
  /\ calculate_holding_cost (fst (fulfill_demand widget 6)) = 2.
Proof.
  assert (H : 0 <= 6 <= total_stock (batches widget)) by (cbn; lia).
  split; [exact H|].
  split;
    [exact (eq_trans
              (proj1 (calculate_holding_cost_tracks_stock widget 4 6 300 H))
              eq_refl)
    | reflexivity].
Defined.

Lemma add_product_new_witness :
  dict_mem shop "Gizmo" = false
  /\ dict_keys (add_product shop "Gizmo" 3 40)
     = ["Widget"; "Gadget"; "Gizmo"]%string.
Proof.
  assert (H : dict_mem shop "Gizmo" = false) by reflexivity.
  split; [exact H|].
  exact (proj2 (proj2 (add_product_new shop "Gizmo" 3 40 H))).
Defined.

Lemma well_formed_preserved_witness :
  well_formed shop
  /\ well_formed (fst (simulate_day shop shop_demand)).
Proof.
  assert (Hwf : well_formed shop).
  { split; [|repeat constructor].
    repeat constructor; cbn; intuition discriminate. }
  split; [exact Hwf|].
  exact (proj2 (proj2 (proj2
           (well_formed_preserved shop "Gizmo" 3 40 1 100 shop_demand Hwf)))).
Defined.


(** ** The csv reader on quoted fields *)

Section QuotedFacts.
Import csv.
Open Scope string_scope.

Lemma parse_line_chars (a b : string) :
  forall r,
    parse_line r (a ++ b)
    = match parse_chars r a with
      | Some r' => parse_line r' b
      | None => None
      end.
Proof.
  induction a as [|c a IH]; intros r; cbn; [reflexivity|].
  destruct (parse_process_char r (Some c)); [apply IH | reflexivity].
Qed.

Lemma parse_chars_snoc (cur : string) (c : ascii) :
  forall r0 r,
    parse_chars r0 cur = Some r ->
    parse_chars r0 (cur ++ str1 c)
    = match parse_process_char r (Some c) with
      | Some r' => Some r'
      | None => None
      end.
Proof.
  induction cur as [|x cur IH]; intros r0 r; cbn.
  - intros [= ->]. now destruct (parse_process_char r (Some c)).
  - destruct (parse_process_char r0 (Some x)); [apply IH | discriminate].
Qed.

Lemma lines_from_char (c : ascii) (cur rest : string) :
  Ascii.eqb c LF = false ->
  lines_from cur (String c rest) = lines_from (cur ++ str1 c) rest.
Proof. intros Hc. cbn. now rewrite Hc. Qed.

Lemma has_cr_app (a b : string) : has_cr (a ++ b) = has_cr a || has_cr b.
Proof.
  induction a as [|c a IH]; cbn; [reflexivity|]. now rewrite IH, orb_assoc.
Qed.

Lemma plain_no_cr (f : string) : plain f -> no_cr f.
Proof.
  unfold plain, no_cr. induction f as [|c f IH]; cbn; [reflexivity|]. intros H.
  apply orb_false_iff in H. destruct H as [Hc Hf].
  destruct (special_parts c Hc) as (_ & _ & HCR & _). now rewrite HCR, IH.
Qed.

Lemma double_quotes_no_cr (n : string) : no_cr n -> no_cr (double_quotes n).
Proof.
  unfold no_cr. induction n as [|c n IH]; cbn; [reflexivity|]. intros H.
  apply orb_false_iff in H. destruct H as [Hc Hn].
  destruct (Ascii.eqb c quotechar) eqn:Hq; cbn.
  - now apply IH.
  - now rewrite Hc, IH.
Qed.

(** The body of a quoted field, up to its closing quote: the reader
    gathers the field as it was written, over as many lines as the field
    has line feeds. *)
Lemma reader_quoted_body (n : string) :
  no_cr n ->
  forall (saved : list string) (f cur : string) (r0 : Reader) (tail : string),
    parse_chars r0 cur = Some (mkReader IN_QUOTED_FIELD saved f) ->
    exists r1 cur1,
      parse_chars r1 cur1 = Some (mkReader QUOTE_IN_QUOTED_FIELD saved (f ++ n))
      /\ reader_rows r0
           (lines_from cur (double_quotes n ++ String quotechar tail))
         = reader_rows r1 (lines_from cur1 tail).
Proof.
  unfold no_cr. induction n as [|c n IH]; intros Hn saved f cur r0 tail Hcur.
  - exists r0, (cur ++ str1 quotechar). split.
    + rewrite (parse_chars_snoc cur quotechar r0 _ Hcur). cbn.
      now rewrite append_nil_r.
    + cbn [double_quotes append]. now rewrite lines_from_char by reflexivity.
  - cbn in Hn. apply orb_false_iff in Hn. destruct Hn as [Hc Hn].
    cbn [double_quotes].
    destruct (Ascii.eqb c quotechar) eqn:Hq.
    + apply Ascii.eqb_eq in Hq. subst c. cbn [append].
      rewrite !lines_from_char by reflexivity.
      destruct (IH Hn saved (f ++ str1 quotechar)
                  ((cur ++ str1 quotechar) ++ str1 quotechar) r0 tail)
        as (r1 & cur1 & Hr1 & Hrows).
      * rewrite (parse_chars_snoc _ quotechar r0
                   (mkReader QUOTE_IN_QUOTED_FIELD saved f)).
        -- reflexivity.
        -- now rewrite (parse_chars_snoc cur quotechar r0 _ Hcur).
      * exists r1, cur1. split; [|exact Hrows].
        rewrite Hr1. now rewrite append_assoc.
    + cbn [append]. destruct (Ascii.eqb c LF) eqn:HLF.
      * apply Ascii.eqb_eq in HLF. subst c.
        destruct (IH Hn saved (f ++ str1 LF) "" 
                    (mkReader IN_QUOTED_FIELD saved (f ++ str1 LF)) tail
                    eq_refl) as (r1 & cur1 & Hr1 & Hrows).
        exists r1, cur1. split; [now rewrite Hr1, append_assoc|].
        rewrite <- Hrows. cbn [lines_from]. rewrite Ascii.eqb_refl.
        cbn [reader_rows]. rewrite parse_line_chars, Hcur. reflexivity.
      * destruct (IH Hn saved (f ++ str1 c) (cur ++ str1 c) r0 tail)
          as (r1 & cur1 & Hr1 & Hrows).
        -- rewrite (parse_chars_snoc cur c r0 _ Hcur).
           unfold parse_process_char. cbn [state]. now rewrite Hq.
        -- exists r1, cur1. split; [now rewrite Hr1, append_assoc|].
           now rewrite lines_from_char by assumption.
Qed.
End QuotedFacts.

Section SavableRows.
Import csv.
Open Scope string_scope.

Lemma universal_newlines_no_cr (a rest : string) :
  no_cr a ->
  universal_newlines (a ++ lineterminator ++ rest)
  = a ++ String LF (universal_newlines rest).
Proof.
  unfold no_cr. induction a as [|c a IH]; intros Ha.
  - reflexivity.
  - cbn in Ha. apply orb_false_iff in Ha. destruct Ha as [Hc Ha].
    cbn [append universal_newlines]. rewrite Hc. now rewrite <- IH.
Qed.

Lemma join_no_cr (fs : list string) : Forall plain fs -> no_cr (join fs).
Proof.
  intros Hfs. unfold no_cr.
  pose proof (join_no_newline fs Hfs) as Hnl.
  induction (join fs) as [|c s IH]; cbn in *; [reflexivity|].
  apply orb_false_iff in Hnl. destruct Hnl as [Hc Hs].
  unfold is_newline in Hc. apply orb_false_iff in Hc.
  destruct Hc as [_ ->]. now apply IH.
Qed.

Lemma join_append_no_cr (name : string) : no_cr name -> no_cr (join_append name).
Proof.
  intros Hn. unfold join_append. destruct (needs_quotes name); [|assumption].
  unfold quoted, no_cr. cbn. rewrite has_cr_app.
  now rewrite (double_quotes_no_cr name Hn).
Qed.

Lemma savable_row_text (row : list string) :
  savable_row row ->
  writerow row = join row ++ lineterminator /\ no_cr (join row).
Proof.
  destruct row as [|name [|g rest]]; cbn [savable_row]; try tauto.
  intros [Hn Hrest]. split; [now destruct name|].
  rewrite join_cons. unfold no_cr. rewrite has_cr_app.
  rewrite (join_append_no_cr name Hn). cbn [has_cr orb].
  now apply join_no_cr.
Qed.

(** The end of a row after a quoted first field. *)
Lemma reader_row_tail (name : string) (fs : list string) (rest : string) :
  Forall plain fs -> fs <> [] ->
  forall (r1 : Reader) (cur1 : string),
    parse_chars r1 cur1 = Some (mkReader QUOTE_IN_QUOTED_FIELD [] name) ->
    reader_rows r1
      (lines_from cur1 (String delimiter (join fs ++ String LF rest)))
    = (let (rows, e) := reader_rows parse_reset (lines_from "" rest) in
       ((name :: fs) :: rows, e)).
Proof.
  intros Hfs Hne r1 cur1 Hcur.
  change (String delimiter (join fs ++ String LF rest))
    with ((String delimiter (join fs)) ++ String LF rest).
  rewrite lines_from_line
    by (cbn [has_newline]; now rewrite join_no_newline).
  cbn [reader_rows]. rewrite parse_line_chars, Hcur.
  cbn [append parse_line]. unfold parse_process_char at 1. cbn [state].
  replace (Ascii.eqb delimiter quotechar) with false by reflexivity.
  rewrite Ascii.eqb_refl.
  unfold set_state, parse_save_field. cbn [state fields field].
  rewrite parse_line_fields by assumption.
  cbn [state ParserState_eqb fields app]. reflexivity.
Qed.

(** One row of the file, whatever follows it. *)
Lemma reader_savable_row (row : list string) (rest : string) :
  savable_row row ->
  reader_rows parse_reset (lines_from "" (row_line row ++ rest))
  = (let (rows, e) := reader_rows parse_reset (lines_from "" rest) in
     (row :: rows, e)).
Proof.
  destruct row as [|name [|g fs]]; cbn [savable_row]; try tauto.
  intros [Hn Hfs]. unfold row_line. rewrite append_assoc. cbn [str1 append].
  destruct (needs_quotes name) eqn:Hquote.
  - rewrite join_cons. unfold join_append. rewrite Hquote. unfold quoted.
    cbn [append]. rewrite !append_assoc. cbn [append].
    rewrite lines_from_char by reflexivity.
    destruct (reader_quoted_body name Hn [] "" (str1 quotechar) parse_reset
                (String delimiter (join (g :: fs) ++ String LF rest)) eq_refl)
      as (r1 & cur1 & Hr1 & Hrows).
    unfold str1 in *. cbn [append] in *. rewrite Hrows.
    apply reader_row_tail; [assumption | discriminate | exact Hr1].
  - rewrite lines_from_line
      by (apply join_no_newline; constructor; assumption).
    cbn [reader_rows append].
    change (join (name :: g :: fs) ++ String LF "")
      with (join (name :: g :: fs) ++ str1 LF).
    rewrite parse_line_row by (constructor; assumption).
    cbn [state ParserState_eqb fields]. reflexivity.
Qed.

(** The rows that the reader yields for a saved file. *)
Lemma reader_savable_rows (rows : list (list string)) :
  Forall savable_row rows ->
  reader (file_lines (write_rows rows)) = (rows, StopIteration).
Proof.
  unfold reader, file_lines. intros Hrows.
  assert (Htext : universal_newlines (write_rows rows)
                  = fold_right (fun row t => row_line row ++ t) "" rows).
  { induction Hrows as [|row rows Hrow Hrows IH]; [reflexivity|].
    cbn [write_rows fold_right]. fold (write_rows rows).
    destruct (savable_row_text row Hrow) as [-> Hcr].
    rewrite append_assoc, universal_newlines_no_cr by assumption.
    rewrite IH. unfold row_line. now rewrite append_assoc. }
  rewrite Htext. clear Htext.
  induction Hrows as [|row rows Hrow Hrows IH]; [reflexivity|].
  cbn [fold_right]. rewrite reader_savable_row by assumption.
  now rewrite IH.
Qed.
End SavableRows.

(** ** Loading what was saved, for every name without carriage return *)

Section RoundTripNoCr.
Context {R : Type} {N : PyNum R} {T : PyText R} {L : PyTextLaws R}.
Implicit Types (m cur src : InventoryManager R) (p : Product R).

Lemma data_rows_savable m :
  Forall (fun entry => product_name (snd entry) = fst entry) m ->
  Forall no_cr (dict_keys m) ->
  Forall savable_row (data_rows m).
Proof.
  intros Hnamed Hcr. unfold data_rows. apply Forall_flat_map.
  induction m as [|[k p] m IH]; [constructor|].
  inversion Hnamed as [|? ? Hk Hnamed']; subst. cbn [fst snd] in Hk.
  cbn [dict_keys map fst] in Hcr. inversion Hcr as [|? ? Hpk Hcr']; subst.
  cbn [dict_values map snd]. constructor; [|now apply IH].
  apply Forall_map, Forall_forall. intros b _.
  unfold batch_row. cbn [savable_row]. split; [assumption|].
  constructor; [apply str_of_int_plain|].
  constructor; [apply py_str_plain | constructor].
Qed.

Lemma get_own_entry m (k : string) p :
  NoDup (dict_keys m) -> In (k, p) m -> dict_get m k = Some p.
Proof.
  intros Hnd Hin. induction m as [|[k' p'] m IH]; [destruct Hin|].
  cbn [dict_keys map fst] in Hnd. inversion Hnd as [|? ? Hk' Hnd']; subst.
  cbn [dict_get]. destruct Hin as [[= -> ->]|Hin].
  - now rewrite String.eqb_refl.
  - destruct (String.eqb_spec k k') as [->|Hne]; [|now apply IH].
    exfalso. apply Hk'. now apply (in_map fst) in Hin.
Qed.

(** What loading a saved file does. *)
Lemma load_saved src cur (filename : string) (fs : FileSystem) :
  well_formed src ->
  Forall no_cr (dict_keys src) ->
  NoDup (dict_keys cur) ->
  load_from_csv cur filename (save_to_csv src filename fs)
  = map (append_saved src) cur.
Proof.
  intros [Hnd Hnamed] Hcr Hcur.
  unfold load_from_csv, save_to_csv, write_file. rewrite String.eqb_refl.
  assert (Hrows : Forall savable_row (header :: data_rows src)).
  { constructor; [|now apply data_rows_savable].
    cbn. split; [reflexivity | repeat constructor]. }
  unfold csv_text. rewrite reader_savable_rows by assumption.
  cbn [fst]. rewrite load_rows_data by assumption.
  now apply fold_updates_map.
Qed.



End RoundTripNoCr.




(** ** Rendering *)

Section RenderingFacts.
Context {R : Type} {N : PyNum R} {T : PyText R}.
Implicit Types (p : Product R) (b : Batch R).
Open Scope string_scope.

Lemma fold_left_lines (bs : list (Batch R)) (info : string) :
  fold_left (fun info batch => info ++ batch_line batch) bs info
  = info ++ fold_right (fun batch text => batch_line batch ++ text) "" bs.
Proof.
  revert info. induction bs as [|b bs IH]; intros info; cbn.
  - now rewrite append_nil_r.
  - now rewrite IH, append_assoc.
Qed.

(** [str] of a product lists the batches from the newest to the oldest:
    after a restock the new batch has the first line under the name, and
    the lines of the batches that were there follow as they were; the
    line of the empty stock appears for a product without batches only. *)
Theorem Product_str_newest_first p (q : Z) (c : R) :
  Product_str (add_batch p q c)
  = name_line p ++ batch_line (mkBatch q c) ++ stock_listing (batches p)
  /\ Product_str p
     = name_line p
       ++ match batches p with
          | [] => "  No batches in stock." ++ csv.str1 csv.LF
          | _ :: _ => stock_listing (batches p)
          end.
Proof.
  split.
  - unfold Product_str. cbn [add_batch batches set_batches].
    destruct (batches p ++ [mkBatch q c])%list as [|b0 bs0] eqn:Hcons.
    + now destruct (batches p).
    + rewrite <- Hcons, rev_unit, fold_left_lines. cbn [fold_right].
      reflexivity.
  - unfold Product_str. destruct (batches p) as [|b bs] eqn:Hb; [reflexivity|].
    now rewrite fold_left_lines.
Qed.
End RenderingFacts.

(** ** The report of a day in closed form *)

Section DayClosedForm.
Context {R : Type} {N : PyNum R} {E : ExactNum R}.
Implicit Types (m : InventoryManager R) (demand : dict Z) (p : Product R).

Lemma stockout_cost_max p (d : Z) :
  quantities_nonneg (batches p) ->
  snd (fulfill_demand p d)
  = py_mul (of_int (Z.max 0 (d - total_stock (batches p)))) (stockout_penalty p).
Proof.
  intros Hq. pose proof (total_stock_nonneg _ Hq) as H0.
  destruct (Z.le_gt_cases d 0) as [Hd|Hd].
  - rewrite fulfill_demand_nonpos by assumption. cbn [snd].
    replace (Z.max 0 (d - total_stock (batches p))) with 0 by lia.
    now rewrite py_mul_0_l.
  - rewrite stockout_cost_unmet by assumption. f_equal. f_equal.
    destruct (Z.le_gt_cases d (total_stock (batches p))) as [Hle|Hgt].
    + rewrite deplete_covered by (rewrite ?total_stock_rev; lia). lia.
    + rewrite deplete_short
        by (rewrite ?total_stock_rev; auto using quantities_nonneg_rev).
      cbn [snd]. rewrite total_stock_rev. lia.
Qed.

Lemma dict_get_in_values m (name : string) p :
  dict_get m name = Some p -> In p (dict_values m).
Proof.
  induction m as [|[k v] m IH]; cbn; [discriminate|].
  destruct (String.eqb name k); [intros [= ->]; now left | auto].
Qed.

Lemma py_sum_skip_zero {A : Type} (f : A -> R) (keep : A -> bool)
    (l : list A) :
  (forall x, keep x = false -> f x = of_int 0) ->
  forall acc,
    fold_left py_add (map f (filter keep l)) acc
    = fold_left py_add (map f l) acc.
Proof.
  intros Hzero. induction l as [|x l IH]; intros acc; cbn; [reflexivity|].
  destruct (keep x) eqn:Hx; cbn; [apply IH|].
  rewrite (Hzero x Hx), py_add_0_r. apply IH.
Qed.

(** In exact arithmetic and with non-negative quantities the report of a
    day is: the holding rate times the stock, summed over the products,
    and the penalty times the demand beyond the stock, summed over the
    entries of the demand dict, an entry without product counting 0. *)
Theorem simulate_day_closed_form m demand :
  NoDup (dict_keys demand) ->
  Forall (fun p => quantities_nonneg (batches p)) (dict_values m) ->
  snd (simulate_day m demand)
  = (py_sum
       (map (fun p => py_mul (of_int (total_stock (batches p))) (holding_cost p))
          (dict_values m)),
     py_sum
       (map (fun entry =>
               match dict_get m (fst entry) with
               | Some p =>
                   py_mul
                     (of_int (Z.max 0 (snd entry - total_stock (batches p))))
                     (stockout_penalty p)
               | None => of_int 0
               end)
          demand)).
Proof.
  intros Hnd Hq. rewrite simulate_day_eq. cbn [snd]. f_equal.
  - f_equal. apply map_ext. intros p. apply calculate_holding_cost_total.
  - destruct (demand_fold_report demand m (of_int 0) Hnd) as [_ ->].
    unfold py_sum, known_demand.
    rewrite <- (py_sum_skip_zero _ (fun entry => dict_mem m (fst entry)) demand).
    + f_equal. apply map_ext_in. intros [name d] Hin.
      unfold stockout_of. cbn [fst snd].
      destruct (dict_get m name) as [p|] eqn:Hget; [|reflexivity].
      apply stockout_cost_max.
      rewrite Forall_forall in Hq. apply Hq.
      now apply (dict_get_in_values m name).
    + intros [name d]. unfold dict_mem. cbn [fst].
      now destruct (dict_get m name).
Qed.
End DayClosedForm.

Lemma simulate_day_closed_form_witness :
  NoDup (dict_keys shop_demand)
  /\ Forall (fun p => quantities_nonneg (batches p)) (dict_values shop)
  /\ snd (simulate_day shop shop_demand) = (8 * 1 + 7 * 2, 3 * 30).
Proof.
  assert (Hnd : NoDup (dict_keys shop_demand)).
  { repeat constructor; cbn; intuition discriminate. }
  assert (Hq : Forall (fun p => quantities_nonneg (batches p)) (dict_values shop)).
  { repeat constructor; cbn; lia. }
  split; [exact Hnd|]. split; [exact Hq|].
  exact (eq_trans (simulate_day_closed_form shop shop_demand Hnd Hq) eq_refl).
Defined.

